(** * xplane_airports: the apt.dat reader of [xplane_airports/AptDat.py]

    A shallow embedding of the three classes of [AptDat.py] ([AptDatLine],
    [Airport], [AptDat]) together with the Python built-ins they call, and
    the properties of the line classifier, the airport segmenter, the record
    builder, the geometry accessors and the container look-ups.

    Python [str] values are modelled by [string]: a character is a code
    point below 256.  Exceptions are modelled by the [result] monad; a
    raised exception ends the computation, the state reached so far is not
    kept.  [float], its arithmetic and [str.upper] are parameters of the
    model (class [Builtins]); [int] ignores the interpreter's limit on the
    number of digits. *)

From Stdlib Require Import String Ascii List ZArith NArith Lia Bool.
From Stdlib Require QArith.
From Stdlib Require Import Permutation Sorted.
Import ListNotations.

Local Open Scope list_scope.

(** ** Exceptions *)

(** The [assert] statements of the module, one constructor per site. *)
Inductive assertion : Type :=
| A_is_runway        (* AptDatLine.runway_type: assert self.is_runway() *)
| A_no_runway        (* "Airport appears to have no runway lines" *)
| A_no_header        (* "Failed to find an airport header line ..." *)
| A_many_headers     (* "Expected only one airport header line ..." *)
| A_duplicate_id     (* "No two airports ... should ever have the same airport code" *)
| A_index.           (* "Tried to access index %d, but this AptDat only has %d airports" *)

Inductive exn : Type :=
| AssertionError (site : assertion)
| IndexError
| ValueError
| KeyError.

Inductive result (A : Type) : Type :=
| Ok (a : A)
| Raise (e : exn).

Arguments Ok {A} a.
Arguments Raise {A} e.

Definition bind {A B : Type} (c : result A) (k : A -> result B) : result B :=
  match c with
  | Ok a => k a
  | Raise e => Raise e
  end.

Definition py_assert (b : bool) (site : assertion) : result unit :=
  if b then Ok tt else Raise (AssertionError site).

Declare Scope py_scope.
Delimit Scope py_scope with py.
Notation "x <- c ;; k" := (bind c (fun x => k))
  (at level 61, c at next level, right associativity) : py_scope.
Local Open Scope py_scope.

(** [list(f(x) for x in xs)] where [f] may raise. *)
Fixpoint mapM {A B : Type} (f : A -> result B) (xs : list A) : result (list B) :=
  match xs with
  | [] => Ok []
  | x :: xs' => y <- f x ;; ys <- mapM f xs' ;; Ok (y :: ys)
  end.

(** ** Python built-ins *)

Module Py.

(** Truth value of a list or of a string: non-empty. *)
Definition truthy {A : Type} (l : list A) : bool :=
  match l with [] => false | _ :: _ => true end.

Definition str_truthy (s : string) : bool :=
  match s with EmptyString => false | String _ _ => true end.

(** [l[k]]: negative indices count from the end, anything else out of
    range raises IndexError. *)
Definition getitem {A : Type} (l : list A) (k : Z) : result A :=
  let n := Z.of_nat (length l) in
  let i := if (k <? 0)%Z then (n + k)%Z else k in
  if ((0 <=? i) && (i <? n))%Z
  then match nth_error l (Z.to_nat i) with
       | Some a => Ok a
       | None => Raise IndexError
       end
  else Raise IndexError.

(** [str.isspace] on one character: the white space of [str.strip()]. *)
Definition isspace (c : ascii) : bool :=
  let n := N_of_ascii c in
  (((9 <=? n) && (n <=? 13)) || ((28 <=? n) && (n <=? 32))
   || (n =? 133) || (n =? 160))%N.

Fixpoint lstrip (s : string) : string :=
  match s with
  | EmptyString => EmptyString
  | String c r => if isspace c then lstrip r else s
  end.

Fixpoint rstrip (s : string) : string :=
  match s with
  | EmptyString => EmptyString
  | String c r =>
      match rstrip r with
      | EmptyString => if isspace c then EmptyString else String c EmptyString
      | r' => String c r'
      end
  end.

(** [s.strip()] *)
Definition strip (s : string) : string := rstrip (lstrip s).

(** [s.split(sep)] for a separator of one character. *)
Fixpoint split (sep : ascii) (s : string) : list string :=
  match s with
  | EmptyString => [EmptyString]
  | String c r =>
      if Ascii.eqb c sep then EmptyString :: split sep r
      else match split sep r with
           | [] => [String c EmptyString]
           | w :: ws => String c w :: ws
           end
  end.

(** [sep.join(l)] *)
Fixpoint join (sep : string) (l : list string) : string :=
  match l with
  | [] => EmptyString
  | [w] => w
  | w :: ws => (w ++ sep ++ join sep ws)%string
  end.

(** [re.sub(' +', ' ', s)]: the scanner is either outside a match or inside
    a run of spaces it has already replaced by one space. *)
Fixpoint re_sub_spaces_from (in_run : bool) (s : string) : string :=
  match s with
  | EmptyString => EmptyString
  | String c r =>
      if Ascii.eqb c " "
      then if in_run then re_sub_spaces_from true r
           else String " " (re_sub_spaces_from true r)
      else String c (re_sub_spaces_from false r)
  end.

Definition re_sub_spaces (s : string) : string := re_sub_spaces_from false s.

(** [sub in s] *)
Fixpoint contains (sub s : string) : bool :=
  String.prefix sub s ||
  match s with
  | EmptyString => false
  | String _ r => contains sub r
  end.

(** Line boundaries of [str.splitlines()]. *)
Definition islinebreak (c : ascii) : bool :=
  let n := N_of_ascii c in
  (((10 <=? n) && (n <=? 13)) || ((28 <=? n) && (n <=? 30)) || (n =? 133))%N.

Definition CR : ascii := ascii_of_N 13.
Definition LF : ascii := ascii_of_N 10.

(** [splitlines_from cur s]: [cur] is the line read so far, in reverse. *)
Fixpoint splitlines_from (cur : list ascii) (s : string) : list string :=
  match s with
  | EmptyString =>
      match cur with
      | [] => []
      | _ => [string_of_list_ascii (rev cur)]
      end
  | String c r =>
      if islinebreak c then
        string_of_list_ascii (rev cur) ::
        (if Ascii.eqb c CR
         then match r with
              | String c' r' =>
                  if Ascii.eqb c' LF then splitlines_from [] r'
                  else splitlines_from [] r
              | EmptyString => splitlines_from [] r
              end
         else splitlines_from [] r)
      else splitlines_from (c :: cur) r
  end.

(** [s.splitlines()] *)
Definition splitlines (s : string) : list string := splitlines_from [] s.

(** [int(s)]: white space around, an optional sign, decimal digits with
    single underscores between them.  The white space [int] accepts is
    that of [isspace] without the separators 28 to 31. *)
Definition int_space (c : ascii) : bool :=
  let n := N_of_ascii c in
  (((9 <=? n) && (n <=? 13)) || (n =? 32) || (n =? 133) || (n =? 160))%N.

Fixpoint int_lstrip (s : string) : string :=
  match s with
  | EmptyString => EmptyString
  | String c r => if int_space c then int_lstrip r else s
  end.

Fixpoint int_rstrip (s : string) : string :=
  match s with
  | EmptyString => EmptyString
  | String c r =>
      match int_rstrip r with
      | EmptyString => if int_space c then EmptyString else String c EmptyString
      | r' => String c r'
      end
  end.

Definition digit (c : ascii) : option Z :=
  let n := N_of_ascii c in
  if ((48 <=? n) && (n <=? 57))%N then Some (Z.of_N n - 48)%Z else None.

(** [after_digit] tells whether the character before was a digit: an
    underscore is accepted only there, and the literal must end there. *)
Fixpoint int_digits (acc : Z) (after_digit : bool) (s : string) : option Z :=
  match s with
  | EmptyString => if after_digit then Some acc else None
  | String c r =>
      match digit c with
      | Some d => int_digits (10 * acc + d) true r
      | None =>
          if Ascii.eqb c "_" && after_digit then int_digits acc false r
          else None
      end
  end.

Definition int (s : string) : option Z :=
  match int_rstrip (int_lstrip s) with
  | String "+" r => int_digits 0 false r
  | String "-" r => option_map Z.opp (int_digits 0 false r)
  | t => int_digits 0 false t
  end.

(** [enumerate(l)] *)
Fixpoint enumerate_from {A : Type} (i : Z) (l : list A) : list (Z * A) :=
  match l with
  | [] => []
  | a :: l' => (i, a) :: enumerate_from (i + 1) l'
  end.

Definition enumerate {A : Type} (l : list A) : list (Z * A) := enumerate_from 0 l.

(** [s.endswith(suffix)] *)
Fixpoint endswith (s suffix : string) : bool :=
  String.eqb s suffix ||
  match s with
  | EmptyString => false
  | String _ r => endswith r suffix
  end.

(** [sorted(l, key=key)], for keys ordered by [ltb].  The sort is stable:
    an element goes before the first one that is not smaller than it, so
    it stays before the later elements with an equal key. *)
Fixpoint insert_sorted {A K : Type} (ltb : K -> K -> bool) (key : A -> K)
    (x : A) (l : list A) : list A :=
  match l with
  | [] => [x]
  | y :: l' =>
      if ltb (key y) (key x) then y :: insert_sorted ltb key x l'
      else x :: l
  end.

Fixpoint sorted {A K : Type} (ltb : K -> K -> bool) (key : A -> K)
    (l : list A) : list A :=
  match l with
  | [] => []
  | x :: l' => insert_sorted ltb key x (sorted ltb key l')
  end.

End Py.

(** What the module takes from the interpreter without the model fixing it:
    the [float] type with [float(s)], [+], [*] and the literal [0.5], and
    [str.upper]. *)
Class Builtins : Type := {
  pyfloat : Type;
  float_of_str : string -> option pyfloat;
  float_add : pyfloat -> pyfloat -> pyfloat;
  float_mul : pyfloat -> pyfloat -> pyfloat;
  float_half : pyfloat;
  upper : string -> string
}.

(** [float(s)], raising ValueError. *)
Definition float `{Builtins} (s : string) : result pyfloat :=
  match float_of_str s with
  | Some x => Ok x
  | None => Raise ValueError
  end.

(** [int(s)], raising ValueError. *)
Definition int_of (s : string) : result Z :=
  match Py.int s with
  | Some z => Ok z
  | None => Raise ValueError
  end.

Definition WED_LINE_ENDING : string := String Py.LF EmptyString.

(** ** class RunwayType *)

Module RunwayType.

Inductive t : Type :=
| LAND_RUNWAY
| WATER_RUNWAY
| HELIPAD.

Definition __int__ (r : t) : Z :=
  match r with
  | LAND_RUNWAY => 100
  | WATER_RUNWAY => 101
  | HELIPAD => 102
  end.

End RunwayType.

(** ** class AptDatLine *)

(** A row code is an [int] when the leading token parses as one and the
    token itself otherwise. *)
Inductive RowCode : Type :=
| IntCode (z : Z)
| StrCode (s : string).

(** Python's [==] between row codes: an [int] never equals a [str]. *)
Definition code_eqb (a b : RowCode) : bool :=
  match a, b with
  | IntCode x, IntCode y => (x =? y)%Z
  | StrCode x, StrCode y => String.eqb x y
  | _, _ => false
  end.

(** [code in codes] *)
Definition code_in (c : RowCode) (codes : list RowCode) : bool :=
  existsb (code_eqb c) codes.

(** [RunwayType(code)]: the enum member with that value. *)
Definition RunwayType_of_code (c : RowCode) : result RunwayType.t :=
  match c with
  | IntCode 100 => Ok RunwayType.LAND_RUNWAY
  | IntCode 101 => Ok RunwayType.WATER_RUNWAY
  | IntCode 102 => Ok RunwayType.HELIPAD
  | _ => Raise ValueError
  end.

Module AptDatLine.

Record t : Type := mk {
  raw : string;
  row_code : RowCode
}.

(** [with suppress(ValueError): self.row_code = int(self.row_code)] *)
Definition suppress_int (tok : string) : RowCode :=
  match Py.int tok with
  | Some z => IntCode z
  | None => StrCode tok
  end.

Definition __init__ (line_text : string) : result t :=
  tok <- Py.getitem (Py.split " " (Py.strip line_text)) 0 ;;
  Ok {| raw := line_text; row_code := suppress_int tok |}.

Definition is_runway (self : t) : bool :=
  code_in (row_code self)
    [IntCode (RunwayType.__int__ RunwayType.LAND_RUNWAY);
     IntCode (RunwayType.__int__ RunwayType.WATER_RUNWAY);
     IntCode (RunwayType.__int__ RunwayType.HELIPAD)].

Definition is_file_header (self : t) : bool :=
  code_in (row_code self) [StrCode "I"; StrCode "A"]
  || Py.contains "Generated by WorldEditor" (raw self).

Definition is_ignorable (self : t) : bool :=
  code_eqb (row_code self) (IntCode 99)
  || is_file_header self
  || negb (Py.str_truthy (Py.strip (raw self))).

Definition is_airport_header (self : t) : bool :=
  code_in (row_code self) [IntCode 1; IntCode 16; IntCode 17].

Definition runway_type (self : t) : result RunwayType.t :=
  _ <- py_assert (is_runway self) A_is_runway ;;
  RunwayType_of_code (row_code self).

Definition __str__ (self : t) : string :=
  Py.re_sub_spaces (Py.strip (raw self)).

Definition tokens (self : t) : list string :=
  Py.split " " (__str__ self).

Definition __bool__ (self : t) : bool := negb (is_ignorable self).

End AptDatLine.

(** ** Files *)

(** The files [write_to_disk] writes: the text of each path, as it is
    handed to [f.write]. *)
Definition disk : Type := string -> option string.

(** [open(path, 'w')] followed by the writes of [content]. *)
Definition write_file (d : disk) (path content : string) : disk :=
  fun p => if String.eqb p path then Some content else d p.

(** What [write_to_disk] leaves: the files, or the failure of
    [assert path_to_write_to.endswith('.dat')]. *)
Inductive written : Type :=
| Written (d : disk)
| NotADatPath.

(** The two lines every file starts with, and its last line. *)
Definition file_head : string :=
  ("I" ++ String Py.LF EmptyString ++
   "1100 Generated by WorldEditor" ++ String Py.LF (String Py.LF EmptyString))%string.

Definition file_tail : string := ("99" ++ String Py.LF EmptyString)%string.

(** ** class Airport *)

(** An element of the iterable given to [Airport.from_lines]: a parsed
    line or a string still to be parsed. *)
Inductive line_or_str : Type :=
| ALine (l : AptDatLine.t)
| AStr (s : string).

Module Airport.
Section WithBuiltins.
Context `{Builtins}.

Record t : Type := mk {
  name : string;
  id : string;
  from_file : string;
  has_atc : bool;
  elevation_ft_amsl : pyfloat;
  text : list AptDatLine.t
}.

Definition __bool__ (self : t) : bool := Py.str_truthy (id self).

Definition __str__ (self : t) : string :=
  Py.join WED_LINE_ENDING (map AptDatLine.raw (text self)).

(** [float(line.tokens[i])] *)
Definition float_token (line : AptDatLine.t) (i : Z) : result pyfloat :=
  tok <- Py.getitem (AptDatLine.tokens line) i ;;
  float tok.

(** [0.5 * (float(line.tokens[i]) + float(line.tokens[j]))] *)
Definition midpoint (line : AptDatLine.t) (i j : Z) : result pyfloat :=
  a <- float_token line i ;;
  b <- float_token line j ;;
  Ok (float_mul float_half (float_add a b)).

Definition latitude (self : t) : result pyfloat :=
  let runways := filter AptDatLine.is_runway (text self) in
  _ <- py_assert (Py.truthy runways) A_no_runway ;;
  rwy_0 <- Py.getitem runways 0 ;;
  ty <- AptDatLine.runway_type rwy_0 ;;
  match ty with
  | RunwayType.LAND_RUNWAY => midpoint rwy_0 9 18
  | RunwayType.WATER_RUNWAY => midpoint rwy_0 4 7
  | RunwayType.HELIPAD => float_token rwy_0 2
  end.

Definition longitude (self : t) : result pyfloat :=
  let runways := filter AptDatLine.is_runway (text self) in
  _ <- py_assert (Py.truthy runways) A_no_runway ;;
  rwy_0 <- Py.getitem runways 0 ;;
  ty <- AptDatLine.runway_type rwy_0 ;;
  match ty with
  | RunwayType.LAND_RUNWAY => midpoint rwy_0 10 19
  | RunwayType.WATER_RUNWAY => midpoint rwy_0 5 8
  | RunwayType.HELIPAD => float_token rwy_0 3
  end.

(** [line if isinstance(line, AptDatLine) else AptDatLine(line)] *)
Definition as_line (x : line_or_str) : result AptDatLine.t :=
  match x with
  | ALine l => Ok l
  | AStr s => AptDatLine.__init__ s
  end.

(** The keyword arguments of the constructor call are evaluated in the
    order they are written: [name], [id], [elevation_ft_amsl], [has_atc]. *)
Definition from_lines (apt_dat_lines : list line_or_str) (from_file_name : string)
  : result t :=
  lines <- mapM as_line apt_dat_lines ;;
  let apt_header_lines := filter AptDatLine.is_airport_header lines in
  _ <- py_assert (0 <? length apt_header_lines)%nat A_no_header ;;
  _ <- py_assert (length apt_header_lines =? 1)%nat A_many_headers ;;
  header <- Py.getitem apt_header_lines 0 ;;
  let name_ := Py.join " " (skipn 5 (AptDatLine.tokens header)) in
  id_ <- Py.getitem (AptDatLine.tokens header) 4 ;;
  tok1 <- Py.getitem (AptDatLine.tokens header) 1 ;;
  elevation <- float tok1 ;;
  tok2 <- Py.getitem (AptDatLine.tokens header) 2 ;;
  atc <- int_of tok2 ;;
  Ok {| name := name_;
        id := id_;
        from_file := from_file_name;
        has_atc := negb (atc =? 0)%Z;
        elevation_ft_amsl := elevation;
        text := lines |}.

Definition from_str (file_text : string) (from_file_name : string) : result t :=
  lines <- mapM AptDatLine.__init__ (Py.splitlines file_text) ;;
  from_lines (map ALine lines) from_file_name.

(** [head(num_lines)] *)
Definition head (self : t) (num_lines : Z) : string :=
  Py.join WED_LINE_ENDING
    (map (fun p => AptDatLine.raw (snd p))
       (filter (fun p => (fst p <? num_lines)%Z) (Py.enumerate (text self)))).

(** The text [write_to_disk] writes. *)
Definition file_text (self : t) : string :=
  (file_head ++ __str__ self ++ file_tail)%string.

Definition write_to_disk (self : t) (path_to_write_to : string) (d : disk)
  : written :=
  if Py.endswith path_to_write_to ".dat"
  then Written (write_file d path_to_write_to (file_text self))
  else NotADatPath.

(** The argument of [has_row_code]: one row code, or several. *)
Inductive codes_arg : Type :=
| OneCode (code : RowCode)
| ManyCodes (codes : list RowCode).

(** [any(line for line in self.text if cond(line))]: the truth value of
    a line is [AptDatLine.__bool__]. *)
Definition any_line (cond : AptDatLine.t -> bool) (self : t) : bool :=
  existsb AptDatLine.__bool__ (filter cond (text self)).

Definition has_row_code (self : t) (row_code_or_codes : codes_arg) : bool :=
  match row_code_or_codes with
  | OneCode code =>
      any_line (fun line => code_eqb (AptDatLine.row_code line) code) self
  | ManyCodes codes =>
      any_line (fun line => code_in (AptDatLine.row_code line) codes) self
  end.

Definition has_taxiway (self : t) : bool :=
  has_row_code self (ManyCodes [IntCode 113; IntCode 114]).

Definition has_taxi_route (self : t) : bool :=
  has_row_code self (OneCode (IntCode 1200)).

Definition has_traffic_flow (self : t) : bool :=
  has_row_code self (OneCode (IntCode 1000)).

Definition has_ground_routes (self : t) : bool :=
  has_row_code self (ManyCodes [IntCode 1400; IntCode 1401; IntCode 1200]).

Definition has_taxiway_sign (self : t) : bool :=
  has_row_code self (OneCode (IntCode 20)).

Definition has_comm_freq (self : t) : bool :=
  has_row_code self
    (ManyCodes [IntCode 50; IntCode 51; IntCode 52; IntCode 53;
                IntCode 54; IntCode 55; IntCode 56]).

End WithBuiltins.
End Airport.

(** ** class AptDat *)

(** The argument of [_parse_text]: a list of lines or the whole text. *)
Inductive text_arg : Type :=
| TextList (lines : list string)
| TextStr (s : string).

(** [apt_dat_text] itself when it is a list, [apt_dat_text.splitlines()]
    when it is a string. *)
Definition lines_of (apt_dat_text : text_arg) : list string :=
  match apt_dat_text with
  | TextList lines => lines
  | TextStr s => Py.splitlines s
  end.

(** The argument of [__getitem__]. *)
Inductive key_t : Type :=
| KInt (k : Z)
| KStr (s : string).

Module AptDat.
Section WithBuiltins.
Context `{Builtins}.

Record t : Type := mk {
  airports : list Airport.t;
  path_to_file : option string
}.

(** [AptDat()] *)
Definition empty : t := {| airports := []; path_to_file := None |}.

(** [if apt_lines: self.airports.append(Airport.from_lines(apt_lines, from_file))] *)
Definition finish_airport (acc : list Airport.t) (apt_lines : list AptDatLine.t)
    (from_file : string) : result (list Airport.t) :=
  if Py.truthy apt_lines
  then apt <- Airport.from_lines (map ALine apt_lines) from_file ;;
       Ok (acc ++ [apt])
  else Ok acc.

(** The [for] loop of [_parse_text]; its state is [self.airports] and
    [apt_lines]. *)
Fixpoint parse_loop (from_file : string) (apt_dat_text : list string)
    (acc : list Airport.t) (apt_lines : list AptDatLine.t)
  : result (list Airport.t * list AptDatLine.t) :=
  match apt_dat_text with
  | [] => Ok (acc, apt_lines)
  | l :: rest =>
      line <- AptDatLine.__init__ l ;;
      if AptDatLine.is_airport_header line then
        acc' <- finish_airport acc apt_lines from_file ;;
        parse_loop from_file rest acc' [line]
      else if negb (AptDatLine.is_ignorable line) then
        parse_loop from_file rest acc (apt_lines ++ [line])
      else
        parse_loop from_file rest acc apt_lines
  end.

Definition _parse_text (self : t) (apt_dat_text : text_arg) (from_file : string)
  : result t :=
  let apt_dat_text := lines_of apt_dat_text in
  st <- parse_loop from_file apt_dat_text (airports self) [] ;;
  acc <- finish_airport (fst st) (snd st) from_file ;;
  Ok {| airports := acc; path_to_file := Some from_file |}.

Definition from_file_text (apt_dat_file_text : text_arg) (from_file : string)
  : result t :=
  _parse_text empty apt_dat_file_text from_file.

Definition search_by_predicate (self : t) (predicate_fn : Airport.t -> bool)
  : list Airport.t :=
  filter predicate_fn (airports self).

Definition search_by_id (self : t) (apt_id : string) : result (option Airport.t) :=
  let found :=
    search_by_predicate self
      (fun apt => String.eqb (upper (Airport.id apt)) (upper apt_id)) in
  if Py.truthy found then
    _ <- py_assert (length found =? 1)%nat A_duplicate_id ;;
    apt <- Py.getitem found 0 ;;
    Ok (Some apt)
  else Ok None.

Definition search_by_name (self : t) (apt_name : string) : list Airport.t :=
  search_by_predicate self
    (fun apt => String.eqb (upper (Airport.name apt)) (upper apt_name)).

(** What [__getitem__] returns: an airport, or the list [search_by_name]
    found. *)
Inductive item : Type :=
| ItemAirport (apt : Airport.t)
| ItemList (apts : list Airport.t).

Definition __getitem__ (self : t) (key : key_t) : result item :=
  match key with
  | KInt k =>
      _ <- py_assert (k <? Z.of_nat (length (airports self)))%Z A_index ;;
      apt <- Py.getitem (airports self) k ;;
      Ok (ItemAirport apt)
  | KStr s =>
      by_id <- search_by_id self s ;;
      match by_id with
      | Some apt =>
          if Airport.__bool__ apt then Ok (ItemAirport apt)
          else let by_name := search_by_name self s in
               if Py.truthy by_name then Ok (ItemList by_name)
               else Raise KeyError
      | None =>
          let by_name := search_by_name self s in
          if Py.truthy by_name then Ok (ItemList by_name)
          else Raise KeyError
      end
  end.

(** [__str__] *)
Definition __str__ (self : t) : string :=
  Py.join WED_LINE_ENDING (map Airport.__str__ (airports self)).

(** The text [write_to_disk] writes: each airport is followed by two
    line terminators. *)
Definition file_text (self : t) : string :=
  (file_head ++
   String.concat EmptyString
     (map (fun apt => Airport.__str__ apt ++ WED_LINE_ENDING ++ WED_LINE_ENDING)
        (airports self)) ++
   file_tail)%string.

Definition write_to_disk (self : t) (path_to_write_to : string) (d : disk)
  : written :=
  if Py.endswith path_to_write_to ".dat"
  then Written (write_file d path_to_write_to (file_text self))
  else NotADatPath.

(** The attributes of an airport that hold a string, as [sort] names
    them.  ([sort] also takes the other attributes: [has_atc], and
    [elevation_ft_amsl], whose order is that of the floats.) *)
Inductive str_attr : Type :=
| attr_name
| attr_id
| attr_from_file.

(** [attrgetter(key)] *)
Definition attrgetter (key : str_attr) (apt : Airport.t) : string :=
  match key with
  | attr_name => Airport.name apt
  | attr_id => Airport.id apt
  | attr_from_file => Airport.from_file apt
  end.

(** [sort(key)]; strings compare code point by code point. *)
Definition sort (self : t) (key : str_attr) : t :=
  {| airports := Py.sorted String.ltb (attrgetter key) (airports self);
     path_to_file := path_to_file self |}.

(** [list(self.ids)], [list(self.names)] *)
Definition ids (self : t) : list string := map Airport.id (airports self).

Definition names (self : t) : list string := map Airport.name (airports self).

Definition __len__ (self : t) : Z := Z.of_nat (length (airports self)).

(** [__concat__]: a new container, read from no file. *)
Definition __concat__ (self other : t) : t :=
  {| airports := airports self ++ airports other; path_to_file := None |}.

(** [__iconcat__]: [self] afterwards. *)
Definition __iconcat__ (self other : t) : t :=
  {| airports := airports self ++ airports other;
     path_to_file := path_to_file self |}.

(** [__add__] *)
Definition __add__ (self : t) (apt : Airport.t) : t :=
  {| airports := airports self ++ [apt]; path_to_file := None |}.

(** [__iadd__]: [self] afterwards, which is also what it returns. *)
Definition __iadd__ (self : t) (apt : Airport.t) : t :=
  {| airports := airports self ++ [apt]; path_to_file := path_to_file self |}.

End WithBuiltins.
End AptDat.

(** ** The line classifier as the specification words it

    The specification speaks of runs of white space; the class of
    characters that makes a run is a parameter here, so that the wording
    can be compared with the code for white space and for the space
    character alone. *)

Module Spec.

(** The space character, U+0020. *)
Definition is_space (c : ascii) : bool := Ascii.eqb c " ".

(** "split on the first run of [blank]": the text before that run. *)
Fixpoint first_word (blank : ascii -> bool) (s : string) : string :=
  match s with
  | EmptyString => EmptyString
  | String c r => if blank c then EmptyString else String c (first_word blank r)
  end.

(** "strip, split on the first run, attempt an integer parse of the first
    token; on failure keep the token" *)
Definition row_code (blank : ascii -> bool) (line_text : string) : RowCode :=
  AptDatLine.suppress_int (first_word blank (Py.strip line_text)).

(** "collapse runs of [blank] to single spaces": a blank character followed
    by another one disappears, the last one of a run becomes the space. *)
Fixpoint collapse_runs (blank : ascii -> bool) (s : string) : string :=
  match s with
  | EmptyString => EmptyString
  | String c r =>
      if blank c then
        match r with
        | EmptyString => String " " EmptyString
        | String c' _ =>
            if blank c' then collapse_runs blank r
            else String " " (collapse_runs blank r)
        end
      else String c (collapse_runs blank r)
  end.

(** "normalized form (collapse interior runs to single spaces, after
    trimming) split on single spaces" *)
Definition tokens (blank : ascii -> bool) (line_text : string) : list string :=
  Py.split " " (collapse_runs blank (Py.strip line_text)).

End Spec.

(** ** An interpreter to run the model: exact decimals and ASCII upper case *)

Module Exact.

Import QArith.

Definition upper_char (c : ascii) : ascii :=
  let n := N_of_ascii c in
  if ((97 <=? n) && (n <=? 122))%N then ascii_of_N (n - 32) else c.

Fixpoint str_upper (s : string) : string :=
  match s with
  | EmptyString => EmptyString
  | String c r => String (upper_char c) (str_upper r)
  end.

Fixpoint digits (acc : Z) (s : string) : option Z :=
  match s with
  | EmptyString => Some acc
  | String c r =>
      match Py.digit c with
      | Some d => digits (10 * acc + d)%Z r
      | None => None
      end
  end.

(** Literals of the shape [-ddd.ddd], read as the rational they denote. *)
Definition unsigned_decimal (s : string) : option Q :=
  match Py.split "." s with
  | [i] =>
      if Py.str_truthy i then option_map inject_Z (digits 0 i) else None
  | [i; f] =>
      if Py.str_truthy i || Py.str_truthy f then
        match digits 0 (i ++ f), Z.to_pos (10 ^ Z.of_nat (String.length f)) with
        | Some n, d => Some (Qmake n d)
        | None, _ => None
        end
      else None
  | _ => None
  end.

Definition decimal (s : string) : option Q :=
  match s with
  | String "-" r => option_map Qopp (unsigned_decimal r)
  | _ => unsigned_decimal s
  end.

Definition builtins : Builtins :=
  {| pyfloat := Q;
     float_of_str := decimal;
     float_add := Qplus;
     float_mul := Qmult;
     float_half := Qmake 1 2;
     upper := str_upper |}.

End Exact.

(** ** Predicates used by the statements *)

Definition not_header (l : AptDatLine.t) : Prop :=
  AptDatLine.is_airport_header l = false.

(** A payload that starts with its only airport-header line. *)
Definition header_first (payload : list AptDatLine.t) : Prop :=
  exists h rest,
    payload = h :: rest /\
    AptDatLine.is_airport_header h = true /\
    Forall not_header rest.

(** What the segmenter holds in [apt_lines]: lines gathered before any
    header was seen, or a header and the lines after it. *)
Definition segment_shape (apt_lines : list AptDatLine.t) : Prop :=
  Forall not_header apt_lines \/ header_first apt_lines.

(** The lines the segmenter keeps. *)
Definition kept (l : AptDatLine.t) : bool := negb (AptDatLine.is_ignorable l).

(** A string without a line boundary. *)
Fixpoint one_line (s : string) : bool :=
  match s with
  | EmptyString => true
  | String c r => negb (Py.islinebreak c) && one_line r
  end.

(** The raw text of an element given to [Airport.from_lines]. *)
Definition raw_of (x : line_or_str) : string :=
  match x with
  | ALine l => AptDatLine.raw l
  | AStr s => s
  end.

(** The header fields [Airport.from_lines] reads: [tokens[4]], and
    [tokens[1]] and [tokens[2]] that [float] and [int] accept. *)
Record header_fields `{Builtins} (header : AptDatLine.t)
    (id_ : string) (elevation : pyfloat) (atc : Z) : Prop := {
  hf_id : nth_error (AptDatLine.tokens header) 4 = Some id_;
  hf_elevation :
    exists tok, nth_error (AptDatLine.tokens header) 1 = Some tok /\
                float_of_str tok = Some elevation;
  hf_atc :
    exists tok, nth_error (AptDatLine.tokens header) 2 = Some tok /\
                Py.int tok = Some atc
}.

(** The airport [Airport.from_lines] builds from such a header. *)
Definition airport_of `{Builtins} (header : AptDatLine.t)
    (id_ : string) (elevation : pyfloat) (atc : Z)
    (from_file_name : string) (payload : list AptDatLine.t) : Airport.t :=
  {| Airport.name := Py.join " " (skipn 5 (AptDatLine.tokens header));
     Airport.id := id_;
     Airport.from_file := from_file_name;
     Airport.has_atc := negb (atc =? 0)%Z;
     Airport.elevation_ft_amsl := elevation;
     Airport.text := payload |}.

(** The tail of a string. *)
Definition behead (s : string) : string :=
  match s with
  | EmptyString => EmptyString
  | String _ t => t
  end.

(** ** Predicates on parsed files *)

(** A line as [AptDatLine.__init__] builds it from its raw text. *)
Definition parsed_line (l : AptDatLine.t) : Prop :=
  AptDatLine.__init__ (AptDatLine.raw l) = Ok l.

(** The raw lines of an airport's payload. *)
Definition payload_raws `{Builtins} (apt : Airport.t) : list string :=
  map AptDatLine.raw (Airport.text apt).

(** An airport as the segmenter builds it from a file: the payload is a
    header line with well-formed fields followed by lines that are
    neither headers nor ignorable, every line being parsed from its raw
    text, and the fields are those [Airport.from_lines] reads. *)
Definition built_from `{Builtins} (from_file : string) (apt : Airport.t) : Prop :=
  exists header rest id_ elevation atc,
    apt = airport_of header id_ elevation atc from_file (header :: rest) /\
    AptDatLine.is_airport_header header = true /\
    header_fields header id_ elevation atc /\
    Forall not_header rest /\
    Forall (fun l => kept l = true) rest /\
    Forall parsed_line (header :: rest).

(** A segment of the input: a header line and the lines up to the next
    header line. *)
Definition segment_lines (seg : string * list string) : list string :=
  fst seg :: snd seg.

(** The airport a segment stands for. *)
Definition segment_airport `{Builtins} (from_file : string)
    (seg : string * list string) (apt : Airport.t) : Prop :=
  exists header rest id_ elevation atc,
    AptDatLine.__init__ (fst seg) = Ok header /\
    AptDatLine.is_airport_header header = true /\
    header_fields header id_ elevation atc /\
    mapM AptDatLine.__init__ (snd seg) = Ok rest /\
    Forall not_header rest /\
    apt = airport_of header id_ elevation atc from_file
            (header :: filter kept rest).

(** The lines the segmenter does not drop: headers and lines that are
    not ignorable. *)
Definition relevant (line_text : string) : bool :=
  match AptDatLine.__init__ line_text with
  | Ok l => AptDatLine.is_airport_header l || kept l
  | Raise _ => true
  end.


(** ** Predicates on normalized lines *)

(** [ends_clean prev s]: the last character of [s] is not a space
    ([prev] tells whether the character before [s] is one). *)
Fixpoint ends_clean (prev : bool) (s : string) : bool :=
  match s with
  | EmptyString => negb prev
  | String c r => ends_clean (Ascii.eqb c " ") r
  end.

(** [single_spaced prev s]: no space of [s] follows a space or ends the
    text. *)
Fixpoint single_spaced (prev : bool) (s : string) : bool :=
  match s with
  | EmptyString => negb prev
  | String c r =>
      if Ascii.eqb c " " then negb prev && single_spaced true r
      else single_spaced false r
  end.

(** What [search_by_id] makes of the airports it found. *)
Definition lookup_result {A : Type} (found : list A) : result (option A) :=
  match found with
  | [] => Ok None
  | [a] => Ok (Some a)
  | _ :: _ :: _ => Raise (AssertionError A_duplicate_id)
  end.

(** ** A small apt.dat file, for running the model *)

Module Sample.

Local Open Scope string_scope.

Definition header_text : string := "1 433 0 0 KSEA Seattle  Tacoma Intl".

Definition runway_text : string :=
  "100 29.87 1 0 0.00 0 2 0 16L 47.0 -122.0 0 0 2 0 0 1 34R 47.0 -122.0 0 0 2 0 0 1".

Definition helipad_text : string := "102 H1 34.5 -118.2 0.00 10 10 1 0 0 0.25 0".

Definition before : list string := ["I"; "1100 Generated by WorldEditor"; ""].

Definition after : list string := [runway_text; ""; helipad_text; "99"].

Definition file_lines : list string := before ++ header_text :: after.

Definition header : AptDatLine.t :=
  {| AptDatLine.raw := header_text; AptDatLine.row_code := IntCode 1 |}.

Definition runway : AptDatLine.t :=
  {| AptDatLine.raw := runway_text; AptDatLine.row_code := IntCode 100 |}.

Definition helipad : AptDatLine.t :=
  {| AptDatLine.raw := helipad_text; AptDatLine.row_code := IntCode 102 |}.

Definition elevation : QArith_base.Q := QArith_base.Qmake 433 1.

(** The airport of the file. *)
Definition ksea : Airport.t (H := Exact.builtins) :=
  airport_of (H := Exact.builtins) header "KSEA" elevation 0 "apt.dat"
    [header; runway; helipad].

(** The same file read as one text. *)
Definition airport_text : string :=
  header_text ++ WED_LINE_ENDING ++ runway_text ++ WED_LINE_ENDING ++ helipad_text.

(** A heliport, with its id in lower case. *)
Definition heliport_header : AptDatLine.t :=
  {| AptDatLine.raw := "17 12 0 0 h1 Harbor Heliport";
     AptDatLine.row_code := IntCode 17 |}.

Definition heliport : Airport.t (H := Exact.builtins) :=
  airport_of (H := Exact.builtins) heliport_header "h1"
    (QArith_base.Qmake 12 1) 0 "apt.dat" [heliport_header; helipad].

Definition container : AptDat.t (H := Exact.builtins) :=
  {| AptDat.airports := [ksea; heliport];
     AptDat.path_to_file := Some "apt.dat" |}.

(** A file of the two airports, as segments and as lines. *)
Definition segments : list (string * list string) :=
  [(header_text, after); ("17 12 0 0 h1 Harbor Heliport", [helipad_text; "99"])].

Definition two_airport_lines : list string :=
  before ++ flat_map segment_lines segments.

End Sample.

(** * Properties *)

(** ** The result monad and the built-ins *)

Lemma bind_Ok_inv {A B : Type} (c : result A) (k : A -> result B) (b : B) :
  bind c k = Ok b -> exists a, c = Ok a /\ k a = Ok b.
Proof.
  destruct c as [a|e]; simpl; intros E; [exists a; auto | discriminate].
Qed.

Lemma py_assert_Ok_inv (b : bool) (site : assertion) (u : unit) :
  py_assert b site = Ok u -> b = true.
Proof.
  destruct b; simpl; [reflexivity | discriminate].
Qed.

Lemma mapM_Ok_cons_inv {A B : Type} (f : A -> result B) x xs l :
  mapM f (x :: xs) = Ok l ->
  exists y ys, f x = Ok y /\ mapM f xs = Ok ys /\ l = y :: ys.
Proof.
  simpl. intros E.
  apply bind_Ok_inv in E. destruct E as [y [Ey E]].
  apply bind_Ok_inv in E. destruct E as [ys [Eys E]].
  injection E as <-. eauto.
Qed.

Lemma mapM_app {A B : Type} (f : A -> result B) xs ys l1 l2 :
  mapM f xs = Ok l1 -> mapM f ys = Ok l2 -> mapM f (xs ++ ys) = Ok (l1 ++ l2).
Proof.
  revert l1. induction xs as [|x xs IH]; simpl; intros l1 E1 E2.
  - injection E1 as <-. exact E2.
  - apply bind_Ok_inv in E1. destruct E1 as [y [Ey E1]].
    apply bind_Ok_inv in E1. destruct E1 as [l [El E1]].
    injection E1 as <-.
    rewrite Ey. simpl. rewrite (IH l El E2). reflexivity.
Qed.

Lemma mapM_app_inv {A B : Type} (f : A -> result B) xs ys l :
  mapM f (xs ++ ys) = Ok l ->
  exists l1 l2, mapM f xs = Ok l1 /\ mapM f ys = Ok l2 /\ l = l1 ++ l2.
Proof.
  revert l. induction xs as [|x xs IH]; simpl; intros l E.
  - exists [], l. auto.
  - apply bind_Ok_inv in E. destruct E as [y [Ey E]].
    apply bind_Ok_inv in E. destruct E as [l' [El E]].
    injection E as <-.
    destruct (IH _ El) as [l1 [l2 [E1 [E2 ->]]]].
    exists (y :: l1), l2. rewrite Ey, E1. simpl. auto.
Qed.

Lemma getitem_0_cons {A : Type} (a : A) (l : list A) :
  Py.getitem (a :: l) 0 = Ok a.
Proof.
  unfold Py.getitem.
  replace (0 <? 0)%Z with false by reflexivity.
  replace ((0 <=? 0) && (0 <? Z.of_nat (length (a :: l))))%Z with true.
  - reflexivity.
  - symmetry. apply andb_true_iff. split.
    + reflexivity.
    + apply Z.ltb_lt. simpl length. lia.
Qed.

Lemma getitem_nth_error {A : Type} (l : list A) (n : nat) (a : A) :
  nth_error l n = Some a -> Py.getitem l (Z.of_nat n) = Ok a.
Proof.
  intros E.
  assert (L : (n < length l)%nat) by (apply nth_error_Some; congruence).
  unfold Py.getitem.
  replace (Z.of_nat n <? 0)%Z with false by (symmetry; apply Z.ltb_ge; lia).
  replace ((0 <=? Z.of_nat n) && (Z.of_nat n <? Z.of_nat (length l)))%Z with true.
  - rewrite Nat2Z.id, E. reflexivity.
  - symmetry. apply andb_true_iff. split.
    + apply Z.leb_le. lia.
    + apply Z.ltb_lt. lia.
Qed.

Lemma getitem_short {A : Type} (l : list A) (n : nat) :
  (length l <= n)%nat -> Py.getitem l (Z.of_nat n) = Raise IndexError.
Proof.
  intros L. unfold Py.getitem.
  replace (Z.of_nat n <? 0)%Z with false by (symmetry; apply Z.ltb_ge; lia).
  replace (Z.of_nat n <? Z.of_nat (length l))%Z with false
    by (symmetry; apply Z.ltb_ge; lia).
  rewrite andb_false_r. reflexivity.
Qed.

(** [split] never returns the empty list, and its first piece is the text
    before the first separator. *)
Lemma split_first_word (s : string) :
  exists ws, Py.split " " s = Spec.first_word Spec.is_space s :: ws.
Proof.
  induction s as [|c r [ws IH]]; simpl.
  - exists []. reflexivity.
  - unfold Spec.is_space at 1.
    destruct (Ascii.eqb c " ").
    + eexists. reflexivity.
    + rewrite IH. eexists. reflexivity.
Qed.

Lemma collapse_runs_space_head (blank : ascii -> bool) (r : string) (c : ascii) :
  blank c = true ->
  exists t, Spec.collapse_runs blank (String c r) = String " " t.
Proof.
  revert c. induction r as [|c' r IH]; intros c Hc.
  - simpl. rewrite Hc. eexists. reflexivity.
  - change (Spec.collapse_runs blank (String c (String c' r)))
      with (if blank c
            then if blank c' then Spec.collapse_runs blank (String c' r)
                 else String " " (Spec.collapse_runs blank (String c' r))
            else String c (Spec.collapse_runs blank (String c' r))).
    rewrite Hc. destruct (blank c') eqn:Hc'.
    + apply IH. exact Hc'.
    + eexists. reflexivity.
Qed.

Lemma re_sub_spaces_from_collapse (s : string) :
  Py.re_sub_spaces_from false s = Spec.collapse_runs Spec.is_space s /\
  Py.re_sub_spaces_from true s =
    match s with
    | EmptyString => EmptyString
    | String c _ =>
        if Spec.is_space c then behead (Spec.collapse_runs Spec.is_space s)
        else Spec.collapse_runs Spec.is_space s
    end.
Proof.
  induction s as [|c r [IHf IHt]].
  - split; reflexivity.
  - assert (Step : Spec.collapse_runs Spec.is_space (String c r) =
              if Spec.is_space c then
                match r with
                | EmptyString => String " " EmptyString
                | String c' _ =>
                    if Spec.is_space c' then Spec.collapse_runs Spec.is_space r
                    else String " " (Spec.collapse_runs Spec.is_space r)
                end
              else String c (Spec.collapse_runs Spec.is_space r))
      by (destruct r; reflexivity).
    rewrite Step. simpl Py.re_sub_spaces_from.
    change (Ascii.eqb c " ") with (Spec.is_space c).
    destruct (Spec.is_space c) eqn:Hc.
    + destruct r as [|c' r'].
      * split; reflexivity.
      * rewrite IHt. destruct (Spec.is_space c') eqn:Hc'.
        -- destruct (collapse_runs_space_head Spec.is_space r' c' Hc') as [t Et].
           rewrite Et. simpl. split; reflexivity.
        -- split; reflexivity.
    + rewrite IHf. split; reflexivity.
Qed.

Lemma re_sub_spaces_collapse (s : string) :
  Py.re_sub_spaces s = Spec.collapse_runs Spec.is_space s.
Proof.
  apply re_sub_spaces_from_collapse.
Qed.

(** [splitlines] undoes [join] with the line terminator, on lines without
    a line boundary the last of which is not empty. *)
Lemma append_nil_r (s : string) : (s ++ "")%string = s.
Proof.
  induction s as [|c s IH]; simpl; [reflexivity | rewrite IH; reflexivity].
Qed.

Lemma append_assoc (a b c : string) :
  ((a ++ b) ++ c)%string = (a ++ (b ++ c))%string.
Proof.
  induction a as [|x a IH]; simpl; [reflexivity | rewrite IH; reflexivity].
Qed.

Lemma string_of_list_ascii_app (l1 l2 : list ascii) :
  string_of_list_ascii (l1 ++ l2) =
  (string_of_list_ascii l1 ++ string_of_list_ascii l2)%string.
Proof.
  induction l1 as [|x l1 IH]; simpl; [reflexivity | rewrite IH; reflexivity].
Qed.

Lemma line_snoc (cur : list ascii) (c : ascii) (l : string) :
  (string_of_list_ascii (rev (c :: cur)) ++ l)%string =
  (string_of_list_ascii (rev cur) ++ String c l)%string.
Proof.
  simpl rev. rewrite string_of_list_ascii_app, append_assoc. reflexivity.
Qed.

Lemma splitlines_from_line (l : string) (cur : list ascii) (s : string) :
  one_line l = true ->
  Py.splitlines_from cur (l ++ String Py.LF s) =
  (string_of_list_ascii (rev cur) ++ l)%string :: Py.splitlines_from [] s.
Proof.
  revert cur. induction l as [|c l IH]; intros cur Hl.
  - simpl. rewrite append_nil_r. reflexivity.
  - simpl in Hl. apply andb_true_iff in Hl. destruct Hl as [Hc Hl].
    apply negb_true_iff in Hc.
    simpl. rewrite Hc, (IH (c :: cur) Hl), line_snoc. reflexivity.
Qed.

Lemma splitlines_from_one_line (l : string) (cur : list ascii) :
  one_line l = true ->
  Py.splitlines_from cur l =
  match cur, l with
  | [], EmptyString => []
  | _, _ => [(string_of_list_ascii (rev cur) ++ l)%string]
  end.
Proof.
  revert cur. induction l as [|c l IH]; intros cur Hl.
  - destruct cur; simpl; [reflexivity | rewrite append_nil_r; reflexivity].
  - simpl in Hl. apply andb_true_iff in Hl. destruct Hl as [Hc Hl].
    apply negb_true_iff in Hc.
    simpl Py.splitlines_from. rewrite Hc, (IH (c :: cur) Hl), line_snoc.
    destruct cur; reflexivity.
Qed.

Lemma splitlines_join (ls : list string) :
  forallb one_line ls = true ->
  last ls EmptyString <> EmptyString ->
  Py.splitlines (Py.join WED_LINE_ENDING ls) = ls.
Proof.
  unfold Py.splitlines.
  induction ls as [|l [|l2 rest] IH]; intros Hl Hlast.
  - exfalso. apply Hlast. reflexivity.
  - simpl in Hl. rewrite andb_true_r in Hl.
    simpl in Hlast. simpl Py.join.
    rewrite (splitlines_from_one_line l [] Hl).
    destruct l; [exfalso; apply Hlast; reflexivity | reflexivity].
  - change (forallb one_line (l :: l2 :: rest))
      with (one_line l && forallb one_line (l2 :: rest)) in Hl.
    apply andb_true_iff in Hl. destruct Hl as [Hl Hrest].
    change (Py.join WED_LINE_ENDING (l :: l2 :: rest))
      with (l ++ String Py.LF (Py.join WED_LINE_ENDING (l2 :: rest)))%string.
    rewrite (splitlines_from_line l [] _ Hl), (IH Hrest Hlast).
    reflexivity.
Qed.

(** ** The line classifier *)

Lemma AptDatLine_init_Ok (line_text : string) :
  AptDatLine.__init__ line_text =
  Ok {| AptDatLine.raw := line_text;
        AptDatLine.row_code := Spec.row_code Spec.is_space line_text |}.
Proof.
  unfold AptDatLine.__init__, Spec.row_code.
  destruct (split_first_word (Py.strip line_text)) as [ws E].
  rewrite E, getitem_0_cons. reflexivity.
Qed.

Lemma AptDatLine_init_raw (line_text : string) (l : AptDatLine.t) :
  AptDatLine.__init__ line_text = Ok l -> AptDatLine.raw l = line_text.
Proof.
  rewrite AptDatLine_init_Ok. intros E. injection E as <-. reflexivity.
Qed.

Lemma mapM_init_total (lines : list string) :
  exists ls, mapM AptDatLine.__init__ lines = Ok ls.
Proof.
  induction lines as [|l lines [ls IH]]; simpl.
  - eexists. reflexivity.
  - rewrite AptDatLine_init_Ok, IH. simpl. eexists. reflexivity.
Qed.

Lemma mapM_init_raw (lines : list string) (ls : list AptDatLine.t) :
  mapM AptDatLine.__init__ lines = Ok ls -> map AptDatLine.raw ls = lines.
Proof.
  revert ls. induction lines as [|l lines IH]; intros ls E.
  - simpl in E. injection E as <-. reflexivity.
  - apply mapM_Ok_cons_inv in E. destruct E as [y [ys [Ey [Eys ->]]]].
    simpl. rewrite (AptDatLine_init_raw _ _ Ey), (IH _ Eys). reflexivity.
Qed.

(** C7, as the claim words it, fails on a line whose first separator is a
    tab: the code keeps the whole text up to the first space character as a
    string row code, where splitting on the first run of white space gives
    the integer 100. *)
Lemma row_code_tab_counterexample :
  let line_text := ("100" ++ String "009" "x 1")%string in
  AptDatLine.__init__ line_text =
    Ok {| AptDatLine.raw := line_text;
          AptDatLine.row_code := StrCode ("100" ++ String "009" "x")%string |} /\
  Spec.row_code Py.isspace line_text = IntCode 100.
Proof.
  split; reflexivity.
Qed.

(** C7 (amended): for every line text, [AptDatLine.__init__] never fails;
    it keeps the text as [raw], and the row code is computed by stripping
    leading and trailing white space, taking the text before the first
    space character (U+0020), and parsing it as an integer, the token
    itself being kept as the row code when the parse fails. *)
Theorem row_code_extraction (line_text : string) :
  AptDatLine.__init__ line_text =
  Ok {| AptDatLine.raw := line_text;
        AptDatLine.row_code :=
          let tok := Spec.first_word Spec.is_space (Py.strip line_text) in
          match Py.int tok with
          | Some z => IntCode z
          | None => StrCode tok
          end |}.
Proof.
  exact (AptDatLine_init_Ok line_text).
Qed.

(** C6, as the claim words it, fails on a line with a tab between two
    fields: the code leaves the tab in place and returns one token, where
    collapsing runs of white space gives two. *)
Lemma tokens_tab_counterexample :
  let line_text := ("1" ++ String "009" "433")%string in
  exists l,
    AptDatLine.__init__ line_text = Ok l /\
    AptDatLine.tokens l = [line_text] /\
    Spec.tokens Py.isspace (AptDatLine.raw l) = ["1"; "433"]%string.
Proof.
  eexists. split; [reflexivity | split; reflexivity].
Qed.

(** C6 (amended): for every line, [tokens] is the normalized form of the
    raw text, leading and trailing white space trimmed and every run of
    space characters (U+0020) collapsed to a single space, other white
    space being left in place, split on single spaces. *)
Theorem tokens_normalized (l : AptDatLine.t) :
  AptDatLine.tokens l = Spec.tokens Spec.is_space (AptDatLine.raw l).
Proof.
  unfold AptDatLine.tokens, AptDatLine.__str__, Spec.tokens.
  rewrite re_sub_spaces_collapse. reflexivity.
Qed.

(** ** The airport record builder *)

#[global] Arguments Py.getitem {A} l k : simpl never.
#[global] Arguments AptDatLine.tokens self : simpl never.

Section AirportBuilder.
Context `{Builtins}.

Lemma mapM_as_line_ALine (ls : list AptDatLine.t) :
  mapM Airport.as_line (map ALine ls) = Ok ls.
Proof.
  induction ls as [|l ls IH]; simpl.
  - reflexivity.
  - rewrite IH. reflexivity.
Qed.

Lemma mapM_as_line_raw (segment : list line_or_str) (lines : list AptDatLine.t) :
  mapM Airport.as_line segment = Ok lines ->
  map AptDatLine.raw lines = map raw_of segment.
Proof.
  revert lines. induction segment as [|x segment IH]; intros lines E.
  - simpl in E. injection E as <-. reflexivity.
  - apply mapM_Ok_cons_inv in E. destruct E as [y [ys [Ey [Eys ->]]]].
    simpl. rewrite (IH _ Eys). f_equal.
    destruct x as [l|s]; simpl in Ey.
    + injection Ey as <-. reflexivity.
    + apply AptDatLine_init_raw. exact Ey.
Qed.

Lemma from_lines_Ok segment lines header id_ elevation atc from_file_name :
  mapM Airport.as_line segment = Ok lines ->
  filter AptDatLine.is_airport_header lines = [header] ->
  header_fields header id_ elevation atc ->
  Airport.from_lines segment from_file_name =
  Ok (airport_of header id_ elevation atc from_file_name lines).
Proof.
  intros El Eh [Hid [t1 [Ht1 Hf]] [t2 [Ht2 Hi]]].
  unfold Airport.from_lines. rewrite El. simpl bind. rewrite Eh.
  simpl.
  rewrite (getitem_nth_error _ 4 _ Hid : Py.getitem _ 4%Z = _). simpl.
  rewrite (getitem_nth_error _ 1 _ Ht1 : Py.getitem _ 1%Z = _). simpl.
  unfold float. rewrite Hf. simpl.
  rewrite (getitem_nth_error _ 2 _ Ht2 : Py.getitem _ 2%Z = _). simpl.
  unfold int_of. rewrite Hi. reflexivity.
Qed.

Lemma length_1_inv {A : Type} (l : list A) :
  (length l =? 1)%nat = true -> exists a, l = [a].
Proof.
  destruct l as [|a [|b l]]; simpl; try discriminate. eauto.
Qed.

Lemma from_lines_Ok_inv segment from_file_name apt :
  Airport.from_lines segment from_file_name = Ok apt ->
  exists header,
    mapM Airport.as_line segment = Ok (Airport.text apt) /\
    filter AptDatLine.is_airport_header (Airport.text apt) = [header].
Proof.
  unfold Airport.from_lines. intros E.
  apply bind_Ok_inv in E. destruct E as [lines [El E]].
  apply bind_Ok_inv in E. destruct E as [u0 [_ E]].
  apply bind_Ok_inv in E. destruct E as [u1 [A1 E]].
  apply py_assert_Ok_inv, length_1_inv in A1. destruct A1 as [header Eh].
  apply bind_Ok_inv in E. destruct E as [h0 [_ E]].
  apply bind_Ok_inv in E. destruct E as [i [_ E]].
  apply bind_Ok_inv in E. destruct E as [t1 [_ E]].
  apply bind_Ok_inv in E. destruct E as [e [_ E]].
  apply bind_Ok_inv in E. destruct E as [t2 [_ E]].
  apply bind_Ok_inv in E. destruct E as [z [_ E]].
  injection E as <-. simpl. exists header. auto.
Qed.

Lemma from_lines_no_header segment lines from_file_name :
  mapM Airport.as_line segment = Ok lines ->
  filter AptDatLine.is_airport_header lines = [] ->
  Airport.from_lines segment from_file_name = Raise (AssertionError A_no_header).
Proof.
  intros El Eh. unfold Airport.from_lines. rewrite El. simpl. rewrite Eh.
  reflexivity.
Qed.

End AirportBuilder.

(** C3, as the claim words it, fails on a segment whose only line is an
    airport header with no further token: [tokens[4]] raises. *)
Lemma from_lines_bare_header_counterexample :
  (exists l, Airport.as_line (AStr "1") = Ok l /\
             AptDatLine.is_airport_header l = true) /\
  Airport.from_lines (H := Exact.builtins) [AStr "1"] "apt.dat" = Raise IndexError.
Proof.
  split; [eexists; split; reflexivity | reflexivity].
Qed.

(** C3 (amended): for every segment whose lines contain exactly one
    airport-header line, when that header has a token 4, a token 1 that
    [float] accepts and a token 2 that [int] accepts, [Airport.from_lines]
    builds the airport whose elevation is the decimal parse of token 1,
    whose ATC flag is the truth value of the integer parse of token 2,
    whose id is token 4, whose name is tokens[5:] joined with single
    spaces, and whose payload is the whole segment in its order, each line
    with its raw text. *)
Theorem from_lines_builds `{Builtins} (segment : list line_or_str)
    (lines : list AptDatLine.t) (header : AptDatLine.t)
    (id_ : string) (elevation : pyfloat) (atc : Z) (from_file_name : string) :
  mapM Airport.as_line segment = Ok lines ->
  filter AptDatLine.is_airport_header lines = [header] ->
  header_fields header id_ elevation atc ->
  exists apt,
    Airport.from_lines segment from_file_name = Ok apt /\
    Airport.elevation_ft_amsl apt = elevation /\
    Airport.has_atc apt = negb (atc =? 0)%Z /\
    Airport.id apt = id_ /\
    Airport.name apt = Py.join " " (skipn 5 (AptDatLine.tokens header)) /\
    Airport.from_file apt = from_file_name /\
    Airport.text apt = lines /\
    map AptDatLine.raw (Airport.text apt) = map raw_of segment.
Proof.
  intros El Eh Hf.
  exists (airport_of header id_ elevation atc from_file_name lines).
  split; [apply from_lines_Ok; assumption|].
  simpl. repeat (split; [reflexivity|]).
  apply mapM_as_line_raw. exact El.
Qed.

Lemma from_str_Ok `{Builtins} file_text lines header id_ elevation atc from_file_name :
  mapM AptDatLine.__init__ (Py.splitlines file_text) = Ok lines ->
  filter AptDatLine.is_airport_header lines = [header] ->
  header_fields header id_ elevation atc ->
  Airport.from_str file_text from_file_name =
  Ok (airport_of header id_ elevation atc from_file_name lines).
Proof.
  intros El Eh Hf. unfold Airport.from_str. rewrite El. simpl bind.
  apply from_lines_Ok; [apply mapM_as_line_ALine | exact Eh | exact Hf].
Qed.

(** C4: for a single-airport text whose lines hold exactly one airport
    header, with the header fields [Airport.from_lines] reads well formed,
    [Airport.from_str] builds an airport whose payload lines are, raw text
    for raw text, the lines of the text, and whose [__str__] is those lines
    joined with the line terminator.  (A runway line is not needed for
    this; the text may hold one or not.) *)
Theorem from_str_roundtrip `{Builtins} (file_text : string)
    (lines : list AptDatLine.t) (header : AptDatLine.t)
    (id_ : string) (elevation : pyfloat) (atc : Z) (from_file_name : string) :
  mapM AptDatLine.__init__ (Py.splitlines file_text) = Ok lines ->
  filter AptDatLine.is_airport_header lines = [header] ->
  header_fields header id_ elevation atc ->
  exists apt,
    Airport.from_str file_text from_file_name = Ok apt /\
    map AptDatLine.raw (Airport.text apt) = Py.splitlines file_text /\
    Airport.__str__ apt = Py.join WED_LINE_ENDING (Py.splitlines file_text).
Proof.
  intros El Eh Hf.
  exists (airport_of header id_ elevation atc from_file_name lines).
  assert (Eraw : map AptDatLine.raw lines = Py.splitlines file_text)
    by (apply mapM_init_raw; exact El).
  split; [|split].
  - apply from_str_Ok; assumption.
  - exact Eraw.
  - unfold Airport.__str__. simpl Airport.text. rewrite Eraw. reflexivity.
Qed.

(** X1: when the text is its lines joined with the line terminator, none of
    them holding a line boundary and the last one not empty, [__str__]
    gives the text back, character for character. *)
Corollary from_str_str_identity `{Builtins} (text_lines : list string)
    (lines : list AptDatLine.t) (header : AptDatLine.t)
    (id_ : string) (elevation : pyfloat) (atc : Z) (from_file_name : string) :
  forallb one_line text_lines = true ->
  last text_lines EmptyString <> EmptyString ->
  mapM AptDatLine.__init__ text_lines = Ok lines ->
  filter AptDatLine.is_airport_header lines = [header] ->
  header_fields header id_ elevation atc ->
  exists apt,
    Airport.from_str (Py.join WED_LINE_ENDING text_lines) from_file_name = Ok apt /\
    Airport.__str__ apt = Py.join WED_LINE_ENDING text_lines.
Proof.
  intros Hl Hlast El Eh Hf.
  exists (airport_of header id_ elevation atc from_file_name lines).
  split.
  - apply from_str_Ok; [|exact Eh | exact Hf].
    rewrite (splitlines_join text_lines Hl Hlast). exact El.
  - unfold Airport.__str__. simpl Airport.text.
    rewrite (mapM_init_raw _ _ El). reflexivity.
Qed.

(** ** The geometry accessors *)

Lemma find_filter {A : Type} (p : A -> bool) (l : list A) :
  match find p l with
  | None => filter p l = []
  | Some x => p x = true /\ exists rest, filter p l = x :: rest
  end.
Proof.
  induction l as [|a l IH]; simpl.
  - reflexivity.
  - destruct (p a) eqn:Ha.
    + split; [exact Ha | eexists; reflexivity].
    + exact IH.
Qed.

Lemma bind_assoc {A B C : Type} (c : result A) (f : A -> result B)
    (g : B -> result C) :
  bind (bind c f) g = bind c (fun a => bind (f a) g).
Proof.
  destruct c; reflexivity.
Qed.

(** C2: [latitude] and [longitude] look for the first line of the payload
    with [is_runway] true and fail with the no-runway assertion when there
    is none; for a land runway (row code 100) they are the averages
    [0.5 * (float(tokens[9]) + float(tokens[18]))] and
    [0.5 * (float(tokens[10]) + float(tokens[19]))], for a water runway
    (101) the averages of tokens 4 and 7 and of tokens 5 and 8, for a
    helipad (102) [float(tokens[2])] and [float(tokens[3])]; a first runway
    line has no other row code.  The tokens are read and parsed from left
    to right, so that a missing token (IndexError) or one that [float]
    refuses (ValueError) ends the computation where it is met. *)
Theorem latitude_longitude_first_runway `{Builtins} (apt : Airport.t) :
  match find AptDatLine.is_runway (Airport.text apt) with
  | None =>
      Airport.latitude apt = Raise (AssertionError A_no_runway) /\
      Airport.longitude apt = Raise (AssertionError A_no_runway)
  | Some rwy_0 =>
      let tokens := AptDatLine.tokens rwy_0 in
      match AptDatLine.row_code rwy_0 with
      | IntCode 100 =>
          Airport.latitude apt =
            (t9 <- Py.getitem tokens 9 ;; a <- float t9 ;;
             t18 <- Py.getitem tokens 18 ;; b <- float t18 ;;
             Ok (float_mul float_half (float_add a b))) /\
          Airport.longitude apt =
            (t10 <- Py.getitem tokens 10 ;; a <- float t10 ;;
             t19 <- Py.getitem tokens 19 ;; b <- float t19 ;;
             Ok (float_mul float_half (float_add a b)))
      | IntCode 101 =>
          Airport.latitude apt =
            (t4 <- Py.getitem tokens 4 ;; a <- float t4 ;;
             t7 <- Py.getitem tokens 7 ;; b <- float t7 ;;
             Ok (float_mul float_half (float_add a b))) /\
          Airport.longitude apt =
            (t5 <- Py.getitem tokens 5 ;; a <- float t5 ;;
             t8 <- Py.getitem tokens 8 ;; b <- float t8 ;;
             Ok (float_mul float_half (float_add a b)))
      | IntCode 102 =>
          Airport.latitude apt =
            (t2 <- Py.getitem tokens 2 ;; float t2) /\
          Airport.longitude apt =
            (t3 <- Py.getitem tokens 3 ;; float t3)
      | _ => False
      end
  end.
Proof.
  pose proof (find_filter AptDatLine.is_runway (Airport.text apt)) as F.
  destruct (find AptDatLine.is_runway (Airport.text apt)) as [rwy_0|].
  - destruct F as [Hr [rest E]]. cbv zeta.
    unfold Airport.latitude, Airport.longitude. rewrite E.
    cbn [Py.truthy py_assert bind]. rewrite getitem_0_cons. cbn [bind].
    unfold AptDatLine.runway_type. rewrite Hr. cbn [py_assert bind].
    unfold AptDatLine.is_runway in Hr.
    destruct (AptDatLine.row_code rwy_0) as [z|s]; [|discriminate Hr].
    simpl in Hr. rewrite orb_false_r in Hr.
    assert (M : forall i j,
      Airport.midpoint rwy_0 i j =
      (ti <- Py.getitem (AptDatLine.tokens rwy_0) i ;; a <- float ti ;;
       tj <- Py.getitem (AptDatLine.tokens rwy_0) j ;; b <- float tj ;;
       Ok (float_mul float_half (float_add a b)))).
    { intros i j. unfold Airport.midpoint, Airport.float_token.
      destruct (Py.getitem (AptDatLine.tokens rwy_0) i) as [ti|e];
        [|reflexivity].
      cbn [bind]. destruct (float ti) as [a|e]; [|reflexivity].
      cbn [bind]. apply bind_assoc. }
    destruct (Z.eqb_spec z 100) as [Ez|N0];
      [subst z; cbn [RunwayType_of_code bind]; rewrite !M;
       split; reflexivity|].
    destruct (Z.eqb_spec z 101) as [Ez|N1];
      [subst z; cbn [RunwayType_of_code bind]; rewrite !M;
       split; reflexivity|].
    destruct (Z.eqb_spec z 102) as [Ez|N2];
      [subst z; cbn [RunwayType_of_code bind];
       unfold Airport.float_token; split; reflexivity|].
    discriminate Hr.
  - unfold Airport.latitude, Airport.longitude. rewrite F.
    split; reflexivity.
Qed.

(** ** The container *)

(** C8: [search_by_id] keeps the airports whose id, upper-cased, equals the
    upper-cased lookup id; with no such airport it returns [None], with
    exactly one it returns that airport, with more it fails on the
    assertion that ids are unique. *)
Theorem search_by_id_cases `{Builtins} (self : AptDat.t) (apt_id : string) :
  match
    filter (fun apt => String.eqb (upper (Airport.id apt)) (upper apt_id))
           (AptDat.airports self)
  with
  | [] => AptDat.search_by_id self apt_id = Ok None
  | [apt] => AptDat.search_by_id self apt_id = Ok (Some apt)
  | _ :: _ :: _ =>
      AptDat.search_by_id self apt_id = Raise (AssertionError A_duplicate_id)
  end.
Proof.
  unfold AptDat.search_by_id, AptDat.search_by_predicate.
  destruct (filter _ (AptDat.airports self)) as [|a [|b l]].
  - reflexivity.
  - cbn [Py.truthy length Nat.eqb py_assert bind].
    rewrite getitem_0_cons. reflexivity.
  - reflexivity.
Qed.

(** C10: in a container of [n] airports, indexing with a negative integer
    [k], [-n <= k <= -1], passes the bounds assertion and returns the
    airport at position [n + k]. *)
Theorem getitem_negative_index `{Builtins} (self : AptDat.t) (k : Z) :
  (- Z.of_nat (length (AptDat.airports self)) <= k <= -1)%Z ->
  exists apt,
    nth_error (AptDat.airports self)
      (Z.to_nat (Z.of_nat (length (AptDat.airports self)) + k)) = Some apt /\
    AptDat.__getitem__ self (KInt k) = Ok (AptDat.ItemAirport apt).
Proof.
  intros Hk.
  set (n := Z.of_nat (length (AptDat.airports self))) in *.
  destruct (nth_error (AptDat.airports self) (Z.to_nat (n + k))) as [apt|] eqn:E.
  - exists apt. split; [reflexivity|].
    unfold AptDat.__getitem__, Py.getitem. fold n.
    replace (k <? n)%Z with true by (symmetry; apply Z.ltb_lt; lia).
    cbn [py_assert bind].
    replace (k <? 0)%Z with true by (symmetry; apply Z.ltb_lt; lia).
    replace ((0 <=? n + k) && (n + k <? n))%Z with true.
    + rewrite E. reflexivity.
    + symmetry. apply andb_true_iff. split.
      * apply Z.leb_le. lia.
      * apply Z.ltb_lt. lia.
  - exfalso. apply nth_error_None in E. unfold n in *. lia.
Qed.

(** ** The airport segmenter *)

Section Segmenter.
Context `{Builtins}.

Lemma filter_header_none (l : list AptDatLine.t) :
  Forall not_header l -> filter AptDatLine.is_airport_header l = [].
Proof.
  induction 1 as [|x l Hx _ IH]; simpl.
  - reflexivity.
  - rewrite Hx. exact IH.
Qed.

Lemma header_first_filter (l : list AptDatLine.t) :
  header_first l -> exists h, filter AptDatLine.is_airport_header l = [h].
Proof.
  intros [h [rest [-> [Hh Hrest]]]]. exists h.
  simpl. rewrite Hh, (filter_header_none rest Hrest). reflexivity.
Qed.

Lemma Forall_filter {A : Type} (P : A -> Prop) (p : A -> bool) (l : list A) :
  Forall P l -> Forall P (filter p l).
Proof.
  induction 1 as [|x l Hx _ IH]; simpl.
  - constructor.
  - destruct (p x); [constructor|]; assumption.
Qed.

Lemma kept_filter_not_ignorable (l : list AptDatLine.t) :
  Forall (fun x => AptDatLine.is_ignorable x = false) (filter kept l).
Proof.
  apply Forall_forall. intros x Hx. apply filter_In in Hx.
  destruct Hx as [_ Hk]. unfold kept in Hk.
  destruct (AptDatLine.is_ignorable x); [discriminate | reflexivity].
Qed.

Lemma filter_kept_forallb (l : list AptDatLine.t) :
  Py.truthy (filter kept l) = negb (forallb AptDatLine.is_ignorable l).
Proof.
  induction l as [|x l IH]; simpl.
  - reflexivity.
  - unfold kept at 1. destruct (AptDatLine.is_ignorable x); simpl.
    + exact IH.
    + reflexivity.
Qed.

Lemma segment_shape_snoc (cur : list AptDatLine.t) (line : AptDatLine.t) :
  segment_shape cur -> not_header line -> segment_shape (cur ++ [line]).
Proof.
  intros [Hn | [h [rest [-> [Hh Hrest]]]]] Hl.
  - left. apply Forall_app. split; [exact Hn | constructor; [exact Hl | constructor]].
  - right. exists h, (rest ++ [line]). repeat split.
    + exact Hh.
    + apply Forall_app. split; [exact Hrest | constructor; [exact Hl | constructor]].
Qed.

(** Over lines none of which is a header, the loop only gathers the lines
    that are not ignorable. *)
Lemma parse_loop_no_header from_file raws ls acc cur :
  mapM AptDatLine.__init__ raws = Ok ls ->
  Forall not_header ls ->
  AptDat.parse_loop from_file raws acc cur = Ok (acc, cur ++ filter kept ls).
Proof.
  revert ls cur. induction raws as [|l raws IH]; intros ls cur E Hn.
  - simpl in E. injection E as <-. simpl. rewrite app_nil_r. reflexivity.
  - apply mapM_Ok_cons_inv in E. destruct E as [line [ls' [El [Els ->]]]].
    inversion Hn as [|? ? Hline Hls']; subst.
    simpl. rewrite El. simpl bind. rewrite Hline.
    unfold kept at 1.
    destruct (AptDatLine.is_ignorable line); simpl.
    + apply IH; assumption.
    + rewrite (IH ls' (cur ++ [line]) Els Hls'), <- app_assoc. reflexivity.
Qed.

Lemma parse_loop_app from_file xs ys acc cur :
  AptDat.parse_loop from_file (xs ++ ys) acc cur =
  (st <- AptDat.parse_loop from_file xs acc cur ;;
   AptDat.parse_loop from_file ys (fst st) (snd st)).
Proof.
  revert acc cur. induction xs as [|x xs IH]; intros acc cur.
  - reflexivity.
  - simpl. destruct (AptDatLine.__init__ x) as [line|e]; [|reflexivity].
    simpl bind.
    destruct (AptDatLine.is_airport_header line).
    + destruct (AptDat.finish_airport acc cur from_file) as [acc'|e];
        [|reflexivity].
      simpl bind. apply IH.
    + destruct (negb (AptDatLine.is_ignorable line)); apply IH.
Qed.

(** Closing a segment adds nothing, or one airport whose payload starts
    with its only header. *)
Lemma finish_airport_inv acc cur from_file acc' :
  AptDat.finish_airport acc cur from_file = Ok acc' ->
  segment_shape cur ->
  exists new,
    acc' = acc ++ new /\
    Forall (fun apt => header_first (Airport.text apt)) new.
Proof.
  unfold AptDat.finish_airport. intros E Hs.
  destruct (Py.truthy cur).
  - apply bind_Ok_inv in E. destruct E as [apt [Ea E]].
    injection E as <-.
    apply from_lines_Ok_inv in Ea. destruct Ea as [header [Et Eh]].
    rewrite mapM_as_line_ALine in Et. injection Et as Et.
    exists [apt]. split; [reflexivity|].
    constructor; [|constructor].
    rewrite <- Et in *.
    destruct Hs as [Hn | Hf]; [|exact Hf].
    rewrite (filter_header_none cur Hn) in Eh. discriminate Eh.
  - injection E as <-. exists []. rewrite app_nil_r. split; constructor.
Qed.

Lemma parse_loop_inv from_file raws acc cur acc' cur' :
  AptDat.parse_loop from_file raws acc cur = Ok (acc', cur') ->
  segment_shape cur ->
  exists new,
    acc' = acc ++ new /\
    Forall (fun apt => header_first (Airport.text apt)) new /\
    segment_shape cur'.
Proof.
  revert acc cur. induction raws as [|l raws IH]; intros acc cur E Hs.
  - simpl in E. injection E as <- <-. exists [].
    rewrite app_nil_r. repeat split; [constructor | exact Hs].
  - simpl in E. rewrite AptDatLine_init_Ok in E. simpl bind in E.
    set (line := {| AptDatLine.raw := l;
                    AptDatLine.row_code := Spec.row_code Spec.is_space l |}) in *.
    destruct (AptDatLine.is_airport_header line) eqn:Hh.
    + apply bind_Ok_inv in E. destruct E as [acc1 [Ef E]].
      destruct (finish_airport_inv _ _ _ _ Ef Hs) as [new1 [-> Hnew1]].
      assert (Hs1 : segment_shape [line])
        by (right; exists line, []; repeat split; [exact Hh | constructor]).
      destruct (IH _ _ E Hs1) as [new2 [-> [Hnew2 Hs']]].
      exists (new1 ++ new2). rewrite app_assoc. repeat split.
      * apply Forall_app. split; assumption.
      * exact Hs'.
    + destruct (negb (AptDatLine.is_ignorable line)).
      * apply (IH _ _ E). apply segment_shape_snoc; assumption.
      * apply (IH _ _ E Hs).
Qed.

End Segmenter.

(** C5, as the claim words it, fails on the banner of a stock apt.dat file:
    none of its lines is an airport header, the version line is not
    ignorable, and the parse ends on the missing-header assertion instead
    of yielding no airport. *)
Lemma parse_text_no_header_counterexample :
  let lines := ["I"; "1100 Version - data cycle 2018.04"; ""; "99"]%string in
  (exists ls, mapM AptDatLine.__init__ lines = Ok ls /\
              forallb (fun l => negb (AptDatLine.is_airport_header l)) ls = true) /\
  AptDat._parse_text (H := Exact.builtins) AptDat.empty (TextList lines) "apt.dat"
  = Raise (AssertionError A_no_header).
Proof.
  split; [eexists; split; reflexivity | reflexivity].
Qed.

(** C5 (amended): for every input without an airport-header line,
    [_parse_text] adds no airport, and raises nothing, when every line is
    ignorable; when some line is not ignorable it fails on the assertion
    that an airport has a header line. *)
Theorem parse_text_no_header `{Builtins} (self : AptDat.t)
    (apt_dat_text : text_arg) (from_file : string) (ls : list AptDatLine.t) :
  mapM AptDatLine.__init__ (lines_of apt_dat_text) = Ok ls ->
  Forall not_header ls ->
  AptDat._parse_text self apt_dat_text from_file =
  if forallb AptDatLine.is_ignorable ls
  then Ok {| AptDat.airports := AptDat.airports self;
             AptDat.path_to_file := Some from_file |}
  else Raise (AssertionError A_no_header).
Proof.
  intros E Hn. unfold AptDat._parse_text.
  rewrite (parse_loop_no_header from_file _ ls _ [] E Hn).
  cbn [bind fst snd app]. unfold AptDat.finish_airport.
  rewrite filter_kept_forallb.
  destruct (forallb AptDatLine.is_ignorable ls); cbn [negb].
  - reflexivity.
  - rewrite (from_lines_no_header _ (filter kept ls)).
    + reflexivity.
    + apply mapM_as_line_ALine.
    + apply filter_header_none, Forall_filter, Hn.
Qed.

(** C1, as the claim words it, fails twice: on a header line without its
    fields no airport is built, and a header line that holds the banner
    text of the authoring tool is ignorable and still in the payload. *)
Lemma parse_text_one_header_counterexample :
  (exists ls,
     mapM AptDatLine.__init__ ["1"; "100 29.87 1"]%string = Ok ls /\
     map AptDatLine.is_airport_header ls = [true; false] /\
     map AptDatLine.is_ignorable ls = [false; false]) /\
  AptDat._parse_text (H := Exact.builtins) AptDat.empty
    (TextList ["1"; "100 29.87 1"]%string) "apt.dat" = Raise IndexError /\
  exists self apt l,
    AptDat._parse_text (H := Exact.builtins) AptDat.empty
      (TextList ["1 433 0 0 WED Generated by WorldEditor"]%string) "apt.dat"
    = Ok self /\
    AptDat.airports self = [apt] /\
    Airport.text apt = [l] /\
    AptDatLine.is_airport_header l = true /\
    AptDatLine.is_ignorable l = true.
Proof.
  split; [eexists; repeat split; reflexivity|].
  split; [reflexivity|].
  do 3 eexists. repeat split; reflexivity.
Qed.

(** C1 (amended): when the input is made of ignorable lines, then one
    airport-header line whose fields are well formed (a token 4, a token 1
    that [float] accepts, a token 2 that [int] accepts), then lines none of
    which is a header, [_parse_text] adds exactly one airport; its payload
    is the header line followed by the lines after it that are not
    ignorable, in the order of the input (all of them when none is
    ignorable), and no line after the header in the payload is ignorable. *)
Theorem parse_text_one_header `{Builtins} (self : AptDat.t)
    (apt_dat_text : text_arg) (from_file : string)
    (before : list string) (h : string) (after : list string)
    (bl : list AptDatLine.t) (header : AptDatLine.t) (al : list AptDatLine.t)
    (id_ : string) (elevation : pyfloat) (atc : Z) :
  lines_of apt_dat_text = before ++ h :: after ->
  mapM AptDatLine.__init__ before = Ok bl ->
  Forall not_header bl ->
  forallb AptDatLine.is_ignorable bl = true ->
  AptDatLine.__init__ h = Ok header ->
  AptDatLine.is_airport_header header = true ->
  header_fields header id_ elevation atc ->
  mapM AptDatLine.__init__ after = Ok al ->
  Forall not_header al ->
  exists apt,
    AptDat._parse_text self apt_dat_text from_file =
      Ok {| AptDat.airports := AptDat.airports self ++ [apt];
            AptDat.path_to_file := Some from_file |} /\
    apt = airport_of header id_ elevation atc from_file
            (header :: filter kept al) /\
    Forall (fun l => AptDatLine.is_ignorable l = false) (filter kept al) /\
    (forallb kept al = true -> Airport.text apt = header :: al).
Proof.
  intros Elines Eb Hb Ib Eh Hh Hf Ea Ha.
  eexists. split; [|split; [reflexivity | split]].
  - unfold AptDat._parse_text. rewrite Elines, parse_loop_app.
    rewrite (parse_loop_no_header from_file before bl _ [] Eb Hb).
    cbn [bind fst snd app].
    assert (Enone : filter kept bl = []).
    { pose proof (filter_kept_forallb bl) as T. rewrite Ib in T.
      destruct (filter kept bl); [reflexivity | discriminate T]. }
    rewrite Enone.
    cbn [AptDat.parse_loop]. rewrite Eh. cbn [bind]. rewrite Hh.
    cbn [AptDat.finish_airport Py.truthy bind].
    rewrite (parse_loop_no_header from_file after al _ [header] Ea Ha).
    cbn [bind fst snd app]. unfold AptDat.finish_airport.
    cbn [Py.truthy].
    rewrite (from_lines_Ok _ (header :: filter kept al) header id_ elevation atc).
    + reflexivity.
    + apply mapM_as_line_ALine.
    + cbn [filter]. rewrite Hh.
      rewrite (filter_header_none (filter kept al)); [reflexivity|].
      apply Forall_filter, Ha.
    + exact Hf.
  - apply kept_filter_not_ignorable.
  - intros K. simpl. f_equal.
    clear - K. induction al as [|x al IH]; simpl in *.
    + reflexivity.
    + apply andb_true_iff in K. destruct K as [Kx K].
      rewrite Kx, (IH K). reflexivity.
Qed.

(** C9, as the claim words it, fails for [Airport.from_lines] and
    [Airport.from_str]: they accept a header line anywhere in the lines
    they are given, here after a runway line. *)
Lemma header_position_counterexample :
  exists apt l rest,
    Airport.from_lines (H := Exact.builtins)
      [AStr "100 29.87 1"; AStr "1 433 0 0 KSEA Seattle"] "apt.dat" = Ok apt /\
    Airport.text apt = l :: rest /\
    AptDatLine.is_airport_header l = false.
Proof.
  do 3 eexists. repeat split; reflexivity.
Qed.

(** C9 (amended): the payload of every airport that [Airport.from_lines]
    or [Airport.from_str] builds contains exactly one airport-header line;
    the payload of every airport that [_parse_text] adds contains exactly
    one airport-header line, and that line is at position 0. *)
Theorem payload_one_header `{Builtins} :
  (forall segment from_file_name apt,
      Airport.from_lines segment from_file_name = Ok apt ->
      exists header,
        filter AptDatLine.is_airport_header (Airport.text apt) = [header]) /\
  (forall file_text from_file_name apt,
      Airport.from_str file_text from_file_name = Ok apt ->
      exists header,
        filter AptDatLine.is_airport_header (Airport.text apt) = [header]) /\
  (forall self apt_dat_text from_file self',
      AptDat._parse_text self apt_dat_text from_file = Ok self' ->
      exists new,
        AptDat.airports self' = AptDat.airports self ++ new /\
        Forall (fun apt => header_first (Airport.text apt)) new).
Proof.
  split; [|split].
  - intros segment f apt E.
    destruct (from_lines_Ok_inv _ _ _ E) as [header [_ Eh]]. eauto.
  - intros file_text f apt E. unfold Airport.from_str in E.
    apply bind_Ok_inv in E. destruct E as [lines [_ E]].
    destruct (from_lines_Ok_inv _ _ _ E) as [header [_ Eh]]. eauto.
  - intros self arg f self' E. unfold AptDat._parse_text in E.
    apply bind_Ok_inv in E. destruct E as [[acc cur] [El E]].
    apply bind_Ok_inv in E. destruct E as [acc' [Ef E]].
    injection E as <-. cbn [fst snd] in Ef.
    assert (Hs0 : segment_shape []) by (left; constructor).
    destruct (parse_loop_inv _ _ _ _ _ _ El Hs0) as [new1 [-> [Hnew1 Hs]]].
    destruct (finish_airport_inv _ _ _ _ Ef Hs) as [new2 [-> Hnew2]].
    exists (new1 ++ new2). cbn [AptDat.airports].
    rewrite app_assoc. split; [reflexivity|].
    apply Forall_app. split; assumption.
Qed.

(** ** The theorems at the sample file *)

Local Open Scope string_scope.

Lemma sample_header_fields :
  header_fields (H := Exact.builtins) Sample.header "KSEA" Sample.elevation 0.
Proof.
  constructor.
  - reflexivity.
  - exists "433"%string. split; reflexivity.
  - exists "0"%string. split; reflexivity.
Defined.

Lemma from_lines_builds_witness :
  exists apt,
    Airport.from_lines (H := Exact.builtins)
      [AStr Sample.header_text; ALine Sample.runway; AStr Sample.helipad_text]
      "apt.dat" = Ok apt /\
    Airport.id apt = "KSEA"%string /\
    Airport.name apt = "Seattle Tacoma Intl"%string /\
    Airport.has_atc apt = false /\
    map AptDatLine.raw (Airport.text apt) =
      [Sample.header_text; Sample.runway_text; Sample.helipad_text].
Proof.
  destruct (from_lines_builds (H := Exact.builtins)
              [AStr Sample.header_text; ALine Sample.runway;
               AStr Sample.helipad_text]
              [Sample.header; Sample.runway; Sample.helipad]
              Sample.header "KSEA" Sample.elevation 0 "apt.dat"
              eq_refl eq_refl sample_header_fields)
    as [apt [E [_ [Ha [Hi [Hn [_ [_ Hr]]]]]]]].
  exists apt. repeat split; assumption.
Defined.

Lemma from_str_roundtrip_witness :
  exists apt,
    Airport.from_str (H := Exact.builtins) Sample.airport_text "apt.dat" = Ok apt /\
    Airport.__str__ apt = Sample.airport_text.
Proof.
  destruct (from_str_roundtrip (H := Exact.builtins) Sample.airport_text
              [Sample.header; Sample.runway; Sample.helipad]
              Sample.header "KSEA" Sample.elevation 0 "apt.dat"
              eq_refl eq_refl sample_header_fields)
    as [apt [E [_ Hs]]].
  exists apt. split; [exact E | exact Hs].
Defined.

Lemma getitem_negative_index_witness :
  AptDat.__getitem__ Sample.container (KInt (-1)) =
    Ok (AptDat.ItemAirport Sample.heliport) /\
  AptDat.__getitem__ Sample.container (KInt (-2)) =
    Ok (AptDat.ItemAirport Sample.ksea).
Proof.
  split.
  - destruct (getitem_negative_index Sample.container (-1)) as [apt [En Eg]].
    + simpl. lia.
    + injection En as <-. exact Eg.
  - destruct (getitem_negative_index Sample.container (-2)) as [apt [En Eg]].
    + simpl. lia.
    + injection En as <-. exact Eg.
Defined.

Lemma parse_text_no_header_witness :
  AptDat._parse_text (H := Exact.builtins) Sample.container
    (TextList Sample.before) "other.dat" =
  Ok {| AptDat.airports := [Sample.ksea; Sample.heliport];
        AptDat.path_to_file := Some "other.dat"%string |}.
Proof.
  refine (parse_text_no_header (H := Exact.builtins) Sample.container
            (TextList Sample.before) "other.dat"
            [ {| AptDatLine.raw := "I"; AptDatLine.row_code := StrCode "I" |};
              {| AptDatLine.raw := "1100 Generated by WorldEditor";
                 AptDatLine.row_code := IntCode 1100 |};
              {| AptDatLine.raw := ""; AptDatLine.row_code := StrCode "" |} ]
            eq_refl _).
  repeat constructor.
Defined.

Lemma parse_text_one_header_witness :
  AptDat._parse_text (H := Exact.builtins) AptDat.empty
    (TextList Sample.file_lines) "apt.dat" =
  Ok {| AptDat.airports := [Sample.ksea];
        AptDat.path_to_file := Some "apt.dat"%string |}.
Proof.
  edestruct (parse_text_one_header (H := Exact.builtins) AptDat.empty
               (TextList Sample.file_lines) "apt.dat"
               Sample.before Sample.header_text Sample.after)
    as [apt [E [Ea _]]].
  - reflexivity.
  - vm_compute. reflexivity.
  - repeat constructor.
  - reflexivity.
  - vm_compute. reflexivity.
  - reflexivity.
  - exact sample_header_fields.
  - vm_compute. reflexivity.
  - repeat constructor.
  - rewrite E, Ea. reflexivity.
Defined.

Lemma payload_one_header_witness :
  header_first (Airport.text Sample.ksea).
Proof.
  destruct (proj2 (proj2 (payload_one_header (H := Exact.builtins)))
              AptDat.empty (TextList Sample.file_lines) "apt.dat"
              {| AptDat.airports := [Sample.ksea];
                 AptDat.path_to_file := Some "apt.dat"%string |}
              eq_refl)
    as [new [En Hn]].
  simpl in En. subst new.
  inversion Hn as [|? ? Hk _]. exact Hk.
Defined.

(** ** The specification's examples *)

(** A land runway with equal end points: the airport is at that point. *)
Example land_runway_geometry :
  match Airport.latitude Sample.ksea, Airport.longitude Sample.ksea with
  | Ok lat, Ok lon =>
      QArith_base.Qeq lat (QArith_base.Qmake 47 1) /\
      QArith_base.Qeq lon (QArith_base.Qmake (-122) 1)
  | _, _ => False
  end.
Proof.
  split; reflexivity.
Qed.

(** A helipad: tokens 2 and 3 as they are, no averaging. *)
Example helipad_geometry :
  Airport.latitude Sample.heliport = Ok (QArith_base.Qmake 345 10) /\
  Airport.longitude Sample.heliport = Ok (QArith_base.Qmake (-1182) 10).
Proof.
  split; reflexivity.
Qed.

(** An airport with id "h1" is found by the key "H1". *)
Example search_by_id_case_insensitive :
  AptDat.search_by_id Sample.container "H1" = Ok (Some Sample.heliport) /\
  AptDat.search_by_id Sample.container "KDEN" = Ok None.
Proof.
  split; reflexivity.
Qed.

(** Two airports with the same id: the lookup fails. *)
Example search_by_id_duplicate :
  AptDat.search_by_id
    {| AptDat.airports := [Sample.ksea; Sample.heliport; Sample.ksea];
       AptDat.path_to_file := None |} "ksea"
  = Raise (AssertionError A_duplicate_id).
Proof.
  reflexivity.
Qed.

(** The sample airport text comes back from [from_str] and [__str__]
    character for character. *)
Lemma from_str_str_identity_witness :
  exists apt,
    Airport.from_str (H := Exact.builtins)
      (Py.join WED_LINE_ENDING
         [Sample.header_text; Sample.runway_text; Sample.helipad_text])
      "apt.dat" = Ok apt /\
    Airport.__str__ apt =
      Py.join WED_LINE_ENDING
        [Sample.header_text; Sample.runway_text; Sample.helipad_text].
Proof.
  refine (from_str_str_identity (H := Exact.builtins)
            [Sample.header_text; Sample.runway_text; Sample.helipad_text]
            [Sample.header; Sample.runway; Sample.helipad]
            Sample.header "KSEA" Sample.elevation 0 "apt.dat"
            eq_refl _ eq_refl eq_refl sample_header_fields).
  discriminate.
Defined.

(** * Further properties of the module *)

Local Open Scope list_scope.

(** ** Lines *)

(** X2: [runway_type] succeeds exactly on the lines with [is_runway], and
    the integer of the runway type it returns is the row code of the line;
    on any other line it fails on its assertion. *)
Theorem runway_type_row_code (line : AptDatLine.t) :
  if AptDatLine.is_runway line
  then exists ty,
         AptDatLine.runway_type line = Ok ty /\
         AptDatLine.row_code line = IntCode (RunwayType.__int__ ty)
  else AptDatLine.runway_type line = Raise (AssertionError A_is_runway).
Proof.
  unfold AptDatLine.runway_type.
  destruct (AptDatLine.is_runway line) eqn:Hr; [|reflexivity].
  cbn [py_assert bind]. unfold AptDatLine.is_runway in Hr.
  destruct (AptDatLine.row_code line) as [z|s]; [|discriminate Hr].
  simpl in Hr. rewrite orb_false_r in Hr.
  destruct (Z.eqb_spec z 100) as [Ez|N0];
    [subst z; exists RunwayType.LAND_RUNWAY; split; reflexivity|].
  destruct (Z.eqb_spec z 101) as [Ez|N1];
    [subst z; exists RunwayType.WATER_RUNWAY; split; reflexivity|].
  destruct (Z.eqb_spec z 102) as [Ez|N2];
    [subst z; exists RunwayType.HELIPAD; split; reflexivity|].
  discriminate Hr.
Qed.

(** ** Row codes of an airport *)

Section RowCodes.
Context `{Builtins}.

Lemma any_line_iff (cond : AptDatLine.t -> bool) (apt : Airport.t) :
  Airport.any_line cond apt = true <->
  exists line,
    In line (Airport.text apt) /\ cond line = true /\
    AptDatLine.is_ignorable line = false.
Proof.
  unfold Airport.any_line. rewrite existsb_exists. split.
  - intros [line [Hin Hb]]. apply filter_In in Hin. destruct Hin as [Hin Hc].
    exists line. repeat split; [exact Hin | exact Hc |].
    unfold AptDatLine.__bool__ in Hb. apply negb_true_iff. exact Hb.
  - intros [line [Hin [Hc Hi]]]. exists line. split.
    + apply filter_In. split; assumption.
    + unfold AptDatLine.__bool__. rewrite Hi. reflexivity.
Qed.

Lemma any_line_orb (c1 c2 : AptDatLine.t -> bool) (apt : Airport.t) :
  Airport.any_line (fun l => c1 l || c2 l) apt =
  Airport.any_line c1 apt || Airport.any_line c2 apt.
Proof.
  unfold Airport.any_line.
  induction (Airport.text apt) as [|l ls IH]; simpl.
  - reflexivity.
  - destruct (c1 l), (c2 l); simpl; rewrite IH;
      destruct (AptDatLine.__bool__ l); simpl;
      repeat match goal with
             | |- context [existsb ?f ?l] =>
                 let b := fresh "b" in
                 generalize (existsb f l); intro b
             end;
      repeat match goal with b : bool |- _ => destruct b end;
      reflexivity.
Qed.

End RowCodes.

(** X3: [has_row_code] is true exactly when some line of the payload has
    the row code (one of the row codes) and is not ignorable: a line that
    is ignorable does not count, so the answer for the end-of-file code 99
    and for the file-header codes "I" and "A" is always false. *)
Theorem has_row_code_not_ignorable `{Builtins} (apt : Airport.t) :
  (forall code,
      Airport.has_row_code apt (Airport.OneCode code) = true <->
      exists line,
        In line (Airport.text apt) /\
        code_eqb (AptDatLine.row_code line) code = true /\
        AptDatLine.is_ignorable line = false) /\
  (forall codes,
      Airport.has_row_code apt (Airport.ManyCodes codes) = true <->
      exists line,
        In line (Airport.text apt) /\
        code_in (AptDatLine.row_code line) codes = true /\
        AptDatLine.is_ignorable line = false) /\
  Airport.has_row_code apt (Airport.OneCode (IntCode 99)) = false /\
  Airport.has_row_code apt (Airport.OneCode (StrCode "I")) = false /\
  Airport.has_row_code apt (Airport.OneCode (StrCode "A")) = false.
Proof.
  split; [intros code; apply any_line_iff|].
  split; [intros codes; apply any_line_iff|].
  repeat split; apply not_true_is_false; intros T;
    apply any_line_iff in T; destruct T as [line [_ [Hc Hi]]];
    unfold AptDatLine.is_ignorable, AptDatLine.is_file_header in Hi;
    destruct (AptDatLine.row_code line) as [z|s]; simpl in Hc, Hi;
    try discriminate Hc.
  - rewrite Hc in Hi. discriminate Hi.
  - rewrite Hc in Hi. discriminate Hi.
  - rewrite Hc in Hi. simpl in Hi. rewrite orb_true_r in Hi. discriminate Hi.
Qed.

(** X4: an airport has ground routes exactly when it has a ground-vehicle
    line (row code 1400 or 1401) or a taxi route; so an airport with a taxi
    route always has ground routes. *)
Theorem has_ground_routes_taxi_route `{Builtins} (apt : Airport.t) :
  Airport.has_ground_routes apt =
  Airport.has_row_code apt (Airport.ManyCodes [IntCode 1400; IntCode 1401])
  || Airport.has_taxi_route apt.
Proof.
  unfold Airport.has_ground_routes, Airport.has_taxi_route, Airport.has_row_code.
  rewrite <- any_line_orb.
  unfold Airport.any_line. f_equal. apply filter_ext. intros l.
  unfold code_in. simpl. rewrite !orb_false_r, orb_assoc. reflexivity.
Qed.

(** ** The first lines of an airport *)

Lemma enumerate_from_firstn {A : Type} (l : list A) (i n : Z) :
  map snd (filter (fun p => (fst p <? n)%Z) (Py.enumerate_from i l)) =
  firstn (Z.to_nat (n - i)) l.
Proof.
  revert i. induction l as [|a l IH]; intros i.
  - simpl. rewrite firstn_nil. reflexivity.
  - simpl. destruct (Z.ltb_spec i n) as [Lt|Ge].
    + replace (Z.to_nat (n - i)) with (S (Z.to_nat (n - (i + 1)))) by lia.
      simpl. rewrite IH. reflexivity.
    + rewrite IH.
      replace (Z.to_nat (n - (i + 1))) with 0%nat by lia.
      replace (Z.to_nat (n - i)) with 0%nat by lia.
      reflexivity.
Qed.

(** X5: [head(num_lines)] is the text of the first [num_lines] lines of the
    payload: nothing for a count of zero or less, and the whole of
    [__str__] as soon as the count reaches the number of lines. *)
Theorem head_first_lines `{Builtins} (apt : Airport.t) (num_lines : Z) :
  Airport.head apt num_lines =
    Py.join WED_LINE_ENDING (firstn (Z.to_nat num_lines) (payload_raws apt)) /\
  ((num_lines <= 0)%Z -> Airport.head apt num_lines = EmptyString) /\
  ((Z.of_nat (length (Airport.text apt)) <= num_lines)%Z ->
   Airport.head apt num_lines = Airport.__str__ apt).
Proof.
  assert (E : Airport.head apt num_lines =
              Py.join WED_LINE_ENDING
                (firstn (Z.to_nat num_lines) (payload_raws apt))).
  { unfold Airport.head, Py.enumerate, payload_raws.
    rewrite <- (map_map snd AptDatLine.raw), enumerate_from_firstn.
    rewrite Z.sub_0_r, firstn_map. reflexivity. }
  split; [exact E | split].
  - intros Hn. rewrite E.
    replace (Z.to_nat num_lines) with 0%nat by lia. reflexivity.
  - intros Hn. rewrite E. unfold Airport.__str__, payload_raws.
    rewrite firstn_all2; [reflexivity|].
    rewrite length_map. lia.
Qed.

Lemma head_first_lines_witness :
  Airport.head Sample.ksea 0 = EmptyString /\
  Airport.head Sample.ksea 10 = Airport.__str__ Sample.ksea.
Proof.
  split.
  - apply (proj1 (proj2 (head_first_lines Sample.ksea 0))). lia.
  - apply (proj2 (proj2 (head_first_lines Sample.ksea 10))). simpl. lia.
Defined.

(** ** Indexing a container *)

(** [__getitem__] on an integer key, case by case. *)
Lemma getitem_int_total `{Builtins} (self : AptDat.t) (k : Z) :
  let n := Z.of_nat (length (AptDat.airports self)) in
  if (n <=? k)%Z then
    AptDat.__getitem__ self (KInt k) = Raise (AssertionError A_index)
  else if (k <? - n)%Z then
    AptDat.__getitem__ self (KInt k) = Raise IndexError
  else
    exists apt,
      nth_error (AptDat.airports self)
        (Z.to_nat (if (k <? 0)%Z then n + k else k)) = Some apt /\
      AptDat.__getitem__ self (KInt k) = Ok (AptDat.ItemAirport apt).
Proof.
  intros n. unfold AptDat.__getitem__, Py.getitem. fold n.
  destruct (Z.leb_spec n k) as [Ge|Lt].
  - replace (k <? n)%Z with false by (symmetry; apply Z.ltb_ge; lia).
    reflexivity.
  - replace (k <? n)%Z with true by (symmetry; apply Z.ltb_lt; lia).
    cbn [py_assert bind].
    destruct (Z.ltb_spec k (- n)) as [Low|High].
    + replace (k <? 0)%Z with true by (symmetry; apply Z.ltb_lt; lia).
      replace (0 <=? n + k)%Z with false by (symmetry; apply Z.leb_gt; lia).
      reflexivity.
    + set (i := if (k <? 0)%Z then (n + k)%Z else k).
      assert (Hi : (0 <= i < n)%Z)
        by (unfold i; destruct (Z.ltb_spec k 0); lia).
      replace ((0 <=? i) && (i <? n))%Z with true.
      * destruct (nth_error (AptDat.airports self) (Z.to_nat i)) as [apt|] eqn:E.
        -- exists apt. split; reflexivity.
        -- exfalso. apply nth_error_None in E. unfold n in Hi. lia.
      * symmetry. apply andb_true_iff. split;
          [apply Z.leb_le | apply Z.ltb_lt]; lia.
Qed.

(** X6: for an integer key [k] and a container of [n] airports,
    [__getitem__] fails on its assertion when [k >= n], raises IndexError
    when [k < -n] (the assertion lets it through), and otherwise returns
    the airport at position [k], counted from the end when [k] is
    negative. *)
Theorem getitem_int_cases `{Builtins} (self : AptDat.t) (k : Z) :
  let n := Z.of_nat (length (AptDat.airports self)) in
  if (n <=? k)%Z then
    AptDat.__getitem__ self (KInt k) = Raise (AssertionError A_index)
  else if (k <? - n)%Z then
    AptDat.__getitem__ self (KInt k) = Raise IndexError
  else
    exists apt,
      nth_error (AptDat.airports self)
        (Z.to_nat (if (k <? 0)%Z then n + k else k)) = Some apt /\
      AptDat.__getitem__ self (KInt k) = Ok (AptDat.ItemAirport apt).
Proof.
  exact (getitem_int_total self k).
Qed.

(** X7: after [self + apt] (and after [self += apt]) the airport added is
    the last one: it is at index -1 and at index [len(self)], and the
    length has grown by one. *)
Theorem add_then_getitem `{Builtins} (self : AptDat.t) (apt : Airport.t) :
  AptDat.__getitem__ (AptDat.__add__ self apt) (KInt (-1)) =
    Ok (AptDat.ItemAirport apt) /\
  AptDat.__getitem__ (AptDat.__add__ self apt) (KInt (AptDat.__len__ self)) =
    Ok (AptDat.ItemAirport apt) /\
  AptDat.__len__ (AptDat.__add__ self apt) = (AptDat.__len__ self + 1)%Z /\
  AptDat.airports (AptDat.__iadd__ self apt) =
    AptDat.airports (AptDat.__add__ self apt).
Proof.
  assert (L : length (AptDat.airports self ++ [apt]) =
              S (length (AptDat.airports self)))
    by (rewrite length_app; simpl; lia).
  assert (N : nth_error (AptDat.airports self ++ [apt])
                (length (AptDat.airports self)) = Some apt)
    by (rewrite nth_error_app2, Nat.sub_diag; [reflexivity | lia]).
  repeat split.
  - pose proof (getitem_int_total (AptDat.__add__ self apt) (-1)) as G.
    cbn zeta in G. cbn [AptDat.__add__ AptDat.airports] in G. rewrite L in G.
    replace (Z.of_nat (S (length (AptDat.airports self))) <=? -1)%Z
      with false in G by (symmetry; apply Z.leb_gt; lia).
    replace (-1 <? - Z.of_nat (S (length (AptDat.airports self))))%Z
      with false in G by (symmetry; apply Z.ltb_ge; lia).
    destruct G as [a [Ha Hg]]. rewrite Hg.
    replace (Z.to_nat
               (if (-1 <? 0)%Z
                then Z.of_nat (S (length (AptDat.airports self))) + -1
                else -1))
      with (length (AptDat.airports self)) in Ha
      by (change (-1 <? 0)%Z with true; cbv iota; lia).
    rewrite N in Ha. injection Ha as <-. reflexivity.
  - pose proof (getitem_int_total (AptDat.__add__ self apt)
                  (AptDat.__len__ self)) as G.
    cbn zeta in G. cbn [AptDat.__add__ AptDat.airports] in G. rewrite L in G.
    unfold AptDat.__len__ in *.
    replace (Z.of_nat (S (length (AptDat.airports self)))
             <=? Z.of_nat (length (AptDat.airports self)))%Z
      with false in G by (symmetry; apply Z.leb_gt; lia).
    replace (Z.of_nat (length (AptDat.airports self))
             <? - Z.of_nat (S (length (AptDat.airports self))))%Z
      with false in G by (symmetry; apply Z.ltb_ge; lia).
    replace (Z.of_nat (length (AptDat.airports self)) <? 0)%Z
      with false in G by (symmetry; apply Z.ltb_ge; lia).
    destruct G as [a [Ha Hg]]. rewrite Hg.
    rewrite Nat2Z.id, N in Ha. injection Ha as <-. reflexivity.
  - unfold AptDat.__len__. cbn [AptDat.__add__ AptDat.airports].
    rewrite L. lia.
Qed.

(** ** Looking up by id and by name *)

Section Lookup.
Context `{Builtins}.

(** The airports whose id, upper-cased, is that of [apt_id]. *)
Let same_id (apt_id : string) (apt : Airport.t) : bool :=
  String.eqb (upper (Airport.id apt)) (upper apt_id).

Let same_name (apt_name : string) (apt : Airport.t) : bool :=
  String.eqb (upper (Airport.name apt)) (upper apt_name).

Lemma search_by_id_lookup (self : AptDat.t) (apt_id : string) :
  AptDat.search_by_id self apt_id =
  lookup_result (filter (same_id apt_id) (AptDat.airports self)).
Proof.
  unfold AptDat.search_by_id, AptDat.search_by_predicate.
  fold (same_id apt_id).
  destruct (filter (same_id apt_id) (AptDat.airports self)) as [|a [|b l]];
    reflexivity.
Qed.

Lemma lookup_result_app {A : Type} (l1 l2 : list A) :
  lookup_result (l1 ++ l2) =
  match lookup_result l1, lookup_result l2 with
  | Ok None, r => r
  | r, Ok None => r
  | _, _ => Raise (AssertionError A_duplicate_id)
  end.
Proof.
  destruct l1 as [|a [|b l1]]; destruct l2 as [|c [|d l2]]; reflexivity.
Qed.

End Lookup.

(** X8: looking an id up in the concatenation of two containers gives
    what one container gives when the other has no airport of that id, and
    fails on the duplicate-id assertion as soon as both have one (or one of
    them already fails). *)
Theorem search_by_id_concat `{Builtins} (self other : AptDat.t)
    (apt_id : string) :
  AptDat.search_by_id (AptDat.__concat__ self other) apt_id =
  match AptDat.search_by_id self apt_id, AptDat.search_by_id other apt_id with
  | Ok None, r => r
  | r, Ok None => r
  | _, _ => Raise (AssertionError A_duplicate_id)
  end /\
  AptDat.search_by_id (AptDat.__iconcat__ self other) apt_id =
  AptDat.search_by_id (AptDat.__concat__ self other) apt_id.
Proof.
  rewrite !search_by_id_lookup.
  cbn [AptDat.__concat__ AptDat.__iconcat__ AptDat.airports].
  rewrite filter_app, lookup_result_app. split; reflexivity.
Qed.

(** X9: for a string key, [__getitem__] tries the id first and the name
    second.  Several airports of that id fail on the duplicate-id
    assertion, whatever the names; exactly one, of non-empty id, is
    returned; otherwise the airports of that name are returned as a list
    when there is one at least, and KeyError is raised when there is none:
    the result is never an empty list. *)
Theorem getitem_str_cases `{Builtins} (self : AptDat.t) (key : string) :
  let by_id :=
    filter (fun apt => String.eqb (upper (Airport.id apt)) (upper key))
      (AptDat.airports self) in
  let by_name :=
    filter (fun apt => String.eqb (upper (Airport.name apt)) (upper key))
      (AptDat.airports self) in
  let second :=
    match by_name with
    | [] => Raise KeyError
    | _ :: _ => Ok (AptDat.ItemList by_name)
    end in
  AptDat.__getitem__ self (KStr key) =
    match by_id with
    | [] => second
    | [apt] =>
        if Py.str_truthy (Airport.id apt) then Ok (AptDat.ItemAirport apt)
        else second
    | _ :: _ :: _ => Raise (AssertionError A_duplicate_id)
    end /\
  AptDat.__getitem__ self (KStr key) <> Ok (AptDat.ItemList []).
Proof.
  intros by_id by_name second.
  assert (E : AptDat.__getitem__ self (KStr key) =
    match by_id with
    | [] => second
    | [apt] =>
        if Py.str_truthy (Airport.id apt) then Ok (AptDat.ItemAirport apt)
        else second
    | _ :: _ :: _ => Raise (AssertionError A_duplicate_id)
    end).
  { unfold AptDat.__getitem__. rewrite search_by_id_lookup.
    unfold AptDat.search_by_name, AptDat.search_by_predicate, Airport.__bool__.
    fold by_id by_name.
    destruct by_id as [|a [|b l]]; cbn [lookup_result bind];
      unfold second; destruct by_name; reflexivity. }
  split; [exact E|].
  rewrite E. unfold second.
  destruct by_id as [|a [|b l]]; [| destruct (Py.str_truthy (Airport.id a)) |];
    destruct by_name; discriminate.
Qed.

(** ** Sorting a container *)

Section StringOrder.

Lemma string_compare_lt_trans (s t u : string) :
  String.compare s t = Lt -> String.compare t u = Lt -> String.compare s u = Lt.
Proof.
  revert t u. induction s as [|a s IH]; intros [|b t] [|c u]; simpl;
    try discriminate; try reflexivity.
  destruct (Ascii.compare a b) eqn:Eab; try discriminate.
  - apply Ascii.compare_eq_iff in Eab. subst b.
    destruct (Ascii.compare a c); try discriminate; [apply IH | reflexivity].
  - intros _. destruct (Ascii.compare b c) eqn:Ebc; try discriminate.
    + apply Ascii.compare_eq_iff in Ebc. subst c. rewrite Eab. reflexivity.
    + intros _. unfold Ascii.compare in *.
      rewrite N.compare_lt_iff in Eab, Ebc.
      replace (N_of_ascii a ?= N_of_ascii c)%N with Lt; [reflexivity|].
      symmetry. apply N.compare_lt_iff. lia.
Qed.

Lemma string_ltb_irrefl (s : string) : String.ltb s s = false.
Proof.
  unfold String.ltb.
  pose proof (String.compare_antisym s s) as E.
  destruct (String.compare s s); try reflexivity; discriminate.
Qed.

Lemma string_ltb_asym (s t : string) :
  String.ltb s t = true -> String.ltb t s = false.
Proof.
  unfold String.ltb. rewrite (String.compare_antisym s t).
  destruct (String.compare t s); simpl; try reflexivity; discriminate.
Qed.

(** [s <= t] and [t <= u] give [s <= u], where [s <= t] is "not [t < s]". *)
Lemma string_le_trans (s t u : string) :
  String.ltb t s = false -> String.ltb u t = false -> String.ltb u s = false.
Proof.
  unfold String.ltb. intros Hts Hut.
  destruct (String.compare u s) eqn:Eus; try reflexivity. exfalso.
  destruct (String.compare t s) eqn:Ets; try discriminate.
  - apply String.compare_eq_iff in Ets. subst t. rewrite Eus in Hut.
    discriminate.
  - assert (Est : String.compare s t = Lt)
      by (rewrite String.compare_antisym, Ets; reflexivity).
    rewrite (string_compare_lt_trans _ _ _ Eus Est) in Hut. discriminate.
Qed.

End StringOrder.

Section Sorting.
Context {A : Type} (key : A -> string).

Let le (a b : A) : Prop := String.ltb (key b) (key a) = false.
Let same (k : string) (a : A) : bool := String.eqb (key a) k.

Lemma insert_sorted_perm (x : A) (l : list A) :
  Permutation (Py.insert_sorted String.ltb key x l) (x :: l).
Proof.
  induction l as [|y l IH]; simpl; [reflexivity|].
  destruct (String.ltb (key y) (key x)); [|reflexivity].
  rewrite IH. apply perm_swap.
Qed.

Lemma sorted_perm (l : list A) : Permutation (Py.sorted String.ltb key l) l.
Proof.
  induction l as [|x l IH]; simpl; [constructor|].
  rewrite insert_sorted_perm. constructor. exact IH.
Qed.

Lemma insert_sorted_Forall (P : A -> Prop) (x : A) (l : list A) :
  P x -> Forall P l -> Forall P (Py.insert_sorted String.ltb key x l).
Proof.
  intros Hx Hl.
  apply (Permutation_Forall (Permutation_sym (insert_sorted_perm x l))).
  constructor; assumption.
Qed.

Lemma insert_sorted_sorted (x : A) (l : list A) :
  StronglySorted le l ->
  StronglySorted le (Py.insert_sorted String.ltb key x l).
Proof.
  induction 1 as [|y l Hs IH Hy]; simpl.
  - constructor; constructor.
  - destruct (String.ltb (key y) (key x)) eqn:E.
    + constructor; [exact IH|].
      apply insert_sorted_Forall; [|exact Hy].
      unfold le. apply string_ltb_asym. exact E.
    + constructor; [constructor; assumption|].
      constructor; [exact E|].
      revert Hy. apply Forall_impl. intros z Hz. unfold le in *.
      apply (string_le_trans _ (key y) _); assumption.
Qed.

Lemma sorted_sorted (l : list A) :
  StronglySorted le (Py.sorted String.ltb key l).
Proof.
  induction l as [|x l IH]; simpl; [constructor|].
  apply insert_sorted_sorted. exact IH.
Qed.

Lemma insert_sorted_filter (k : string) (x : A) (l : list A) :
  filter (same k) (Py.insert_sorted String.ltb key x l) =
  filter (same k) (x :: l).
Proof.
  induction l as [|y l IH]; [reflexivity|].
  cbn [Py.insert_sorted].
  destruct (String.ltb (key y) (key x)) eqn:E; [|reflexivity].
  cbn [filter] in *. rewrite IH. unfold same.
  destruct (String.eqb_spec (key x) k) as [Ex|Nx];
    destruct (String.eqb_spec (key y) k) as [Ey|Ny]; try reflexivity.
  rewrite Ex, Ey, string_ltb_irrefl in E. discriminate.
Qed.

Lemma sorted_filter (k : string) (l : list A) :
  filter (same k) (Py.sorted String.ltb key l) = filter (same k) l.
Proof.
  induction l as [|x l IH]; [reflexivity|].
  cbn [Py.sorted]. rewrite insert_sorted_filter.
  cbn [filter]. rewrite IH. reflexivity.
Qed.

Lemma sorted_fixed (l : list A) :
  StronglySorted le l -> Py.sorted String.ltb key l = l.
Proof.
  induction 1 as [|x l Hs IH Hx]; [reflexivity|].
  cbn [Py.sorted]. rewrite IH.
  destruct Hx as [|y l Hy _]; [reflexivity|].
  cbn [Py.insert_sorted]. unfold le in Hy. rewrite Hy. reflexivity.
Qed.

End Sorting.

Lemma filter_perm {A : Type} (p : A -> bool) (l l' : list A) :
  Permutation l l' -> Permutation (filter p l) (filter p l').
Proof.
  induction 1 as [|x l l' _ IH|x y l|l l' l'' _ IH1 _ IH2]; simpl.
  - constructor.
  - destruct (p x); [constructor|]; exact IH.
  - destruct (p x), (p y); try reflexivity. apply perm_swap.
  - exact (Permutation_trans IH1 IH2).
Qed.

Lemma lookup_result_perm {A : Type} (l l' : list A) :
  Permutation l l' -> lookup_result l = lookup_result l'.
Proof.
  intros P. destruct l as [|a [|b l]].
  - apply Permutation_nil in P. subst l'. reflexivity.
  - apply Permutation_length_1_inv in P. subst l'. reflexivity.
  - apply Permutation_length in P.
    destruct l' as [|c [|d l']]; try discriminate. reflexivity.
Qed.

(** X10: [sort(key)], for an attribute that holds a string, leaves the
    airports a permutation of what they were, in non-decreasing order of
    that attribute (strings compared code point by code point: no airport
    is followed by one of a smaller key), and the sort is stable: the
    airports of any one key keep their relative order. *)
Theorem sort_ordered_stable `{Builtins} (self : AptDat.t)
    (key : AptDat.str_attr) :
  Permutation (AptDat.airports (AptDat.sort self key)) (AptDat.airports self) /\
  StronglySorted
    (fun a b =>
       String.ltb (AptDat.attrgetter key b) (AptDat.attrgetter key a) = false)
    (AptDat.airports (AptDat.sort self key)) /\
  (forall k : string,
     filter (fun a => String.eqb (AptDat.attrgetter key a) k)
       (AptDat.airports (AptDat.sort self key)) =
     filter (fun a => String.eqb (AptDat.attrgetter key a) k)
       (AptDat.airports self)) /\
  AptDat.path_to_file (AptDat.sort self key) = AptDat.path_to_file self.
Proof.
  cbn [AptDat.sort AptDat.airports AptDat.path_to_file].
  repeat split.
  - apply sorted_perm.
  - apply sorted_sorted.
  - intros k. apply sorted_filter.
Qed.

(** X11: sorting changes no look-up by id: [search_by_id] returns the same
    airport, None or duplicate-id failure before and after [sort], the
    container has as many airports, and [search_by_name] finds the same
    airports up to their order. *)
Theorem sort_keeps_lookups `{Builtins} (self : AptDat.t)
    (key : AptDat.str_attr) (s : string) :
  AptDat.search_by_id (AptDat.sort self key) s = AptDat.search_by_id self s /\
  AptDat.__len__ (AptDat.sort self key) = AptDat.__len__ self /\
  Permutation (AptDat.search_by_name (AptDat.sort self key) s)
    (AptDat.search_by_name self s).
Proof.
  pose proof (sorted_perm (AptDat.attrgetter key) (AptDat.airports self)) as P.
  repeat split.
  - rewrite !search_by_id_lookup. apply lookup_result_perm.
    apply filter_perm. exact P.
  - unfold AptDat.__len__. cbn [AptDat.sort AptDat.airports].
    rewrite (Permutation_length P). reflexivity.
  - unfold AptDat.search_by_name, AptDat.search_by_predicate.
    apply filter_perm. exact P.
Qed.

(** X12: sorting twice by the same attribute is sorting once, and a
    container already in non-decreasing order of the attribute is left as
    it is. *)
Theorem sort_idempotent `{Builtins} (self : AptDat.t) (key : AptDat.str_attr) :
  AptDat.sort (AptDat.sort self key) key = AptDat.sort self key /\
  (StronglySorted
     (fun a b =>
        String.ltb (AptDat.attrgetter key b) (AptDat.attrgetter key a) = false)
     (AptDat.airports self) ->
   AptDat.airports (AptDat.sort self key) = AptDat.airports self).
Proof.
  split.
  - unfold AptDat.sort. cbn [AptDat.airports AptDat.path_to_file].
    rewrite (sorted_fixed _ _ (sorted_sorted (AptDat.attrgetter key) _)).
    reflexivity.
  - intros S. cbn [AptDat.sort AptDat.airports]. apply sorted_fixed. exact S.
Qed.

Lemma sort_idempotent_witness :
  AptDat.airports (AptDat.sort Sample.container AptDat.attr_id) =
  AptDat.airports Sample.container.
Proof.
  apply (proj2 (sort_idempotent Sample.container AptDat.attr_id)).
  repeat constructor.
Defined.

(** Sorted by name the heliport ("Harbor Heliport") comes first; sorted
    by id it comes last: in code-point order "K" is before "h". *)
Example sort_code_point_order :
  map Airport.id
    (AptDat.airports (AptDat.sort Sample.container AptDat.attr_name)) =
  ["h1"; "KSEA"]%string /\
  map Airport.id
    (AptDat.airports (AptDat.sort Sample.container AptDat.attr_id)) =
  ["KSEA"; "h1"]%string.
Proof. split; vm_compute; reflexivity. Qed.

(** ** Files of several airports *)

Section Segments.
Context `{Builtins}.

(** The loop of [_parse_text] followed by the closing of the last
    segment. *)
Let run (from_file : string) (lines : list string) (acc : list Airport.t)
    (cur : list AptDatLine.t) : result (list Airport.t) :=
  st <- AptDat.parse_loop from_file lines acc cur ;;
  AptDat.finish_airport (fst st) (snd st) from_file.

Lemma finish_airport_segment from_file acc header rest id_ elevation atc :
  AptDatLine.is_airport_header header = true ->
  header_fields header id_ elevation atc ->
  Forall not_header rest ->
  AptDat.finish_airport acc (header :: rest) from_file =
  Ok (acc ++ [airport_of header id_ elevation atc from_file (header :: rest)]).
Proof.
  intros Hh Hf Hr. unfold AptDat.finish_airport. cbn [Py.truthy].
  rewrite (from_lines_Ok _ (header :: rest) header id_ elevation atc).
  - reflexivity.
  - apply mapM_as_line_ALine.
  - cbn [filter]. rewrite Hh, (filter_header_none rest Hr). reflexivity.
  - exact Hf.
Qed.

Lemma parse_segments from_file segs apts acc cur acc0 :
  Forall2 (segment_airport from_file) segs apts ->
  AptDat.finish_airport acc cur from_file = Ok acc0 ->
  run from_file (flat_map segment_lines segs) acc cur = Ok (acc0 ++ apts).
Proof.
  intros F. revert acc cur acc0.
  induction F as [|seg apt segs apts Hseg _ IH]; intros acc cur acc0 Ef.
  - unfold run. cbn [flat_map AptDat.parse_loop bind fst snd].
    rewrite Ef, app_nil_r. reflexivity.
  - destruct Hseg as [header [rest [id_ [elevation [atc
      [Eh [Hh [Hf [Er [Hr ->]]]]]]]]]].
    unfold run in *. cbn [flat_map]. unfold segment_lines at 1.
    cbn [app AptDat.parse_loop]. rewrite Eh. cbn [bind]. rewrite Hh, Ef.
    cbn [bind]. rewrite parse_loop_app.
    rewrite (parse_loop_no_header from_file (snd seg) rest _ [header] Er Hr).
    cbn [bind fst snd app].
    rewrite (IH acc0 (header :: filter kept rest)
               (acc0 ++ [airport_of header id_ elevation atc from_file
                           (header :: filter kept rest)])).
    + rewrite <- app_assoc. reflexivity.
    + apply finish_airport_segment; [exact Hh | exact Hf |].
      apply Forall_filter, Hr.
Qed.

End Segments.

(** X13: a file made of ignorable lines followed by any number of
    segments, each an airport-header line with well-formed fields and the
    lines up to the next header, parses into one airport a segment, in the
    order of the file: the airport of a segment has the fields of its
    header and, as payload, the header followed by the lines of the
    segment that are not ignorable.  The airports come after those the
    container held. *)
Theorem parse_text_segments `{Builtins} (self : AptDat.t)
    (apt_dat_text : text_arg) (from_file : string)
    (before : list string) (bl : list AptDatLine.t)
    (segs : list (string * list string)) (apts : list Airport.t) :
  lines_of apt_dat_text = before ++ flat_map segment_lines segs ->
  mapM AptDatLine.__init__ before = Ok bl ->
  Forall not_header bl ->
  forallb AptDatLine.is_ignorable bl = true ->
  Forall2 (segment_airport from_file) segs apts ->
  AptDat._parse_text self apt_dat_text from_file =
    Ok {| AptDat.airports := AptDat.airports self ++ apts;
          AptDat.path_to_file := Some from_file |}.
Proof.
  intros Elines Eb Hb Ib F.
  pose proof (parse_segments from_file segs apts (AptDat.airports self) []
                (AptDat.airports self) F eq_refl) as R.
  cbv zeta beta delta [bind] in R.
  unfold AptDat._parse_text. rewrite Elines, parse_loop_app.
  rewrite (parse_loop_no_header from_file before bl _ [] Eb Hb).
  assert (Enone : filter kept bl = []).
  { pose proof (filter_kept_forallb bl) as T. rewrite Ib in T.
    destruct (filter kept bl); [reflexivity | discriminate T]. }
  rewrite Enone. cbn [bind fst snd app].
  destruct (AptDat.parse_loop from_file (flat_map segment_lines segs)
              (AptDat.airports self) []) as [st|e]; cbn [bind] in *;
    [|discriminate R].
  rewrite R. reflexivity.
Qed.

Lemma heliport_header_fields :
  header_fields (H := Exact.builtins) Sample.heliport_header "h1"%string
    (QArith_base.Qmake 12 1) 0.
Proof.
  constructor.
  - reflexivity.
  - exists "12"%string. split; reflexivity.
  - exists "0"%string. split; reflexivity.
Defined.

Lemma sample_segments :
  Forall2 (segment_airport (H := Exact.builtins) "apt.dat")
    Sample.segments [Sample.ksea; Sample.heliport].
Proof.
  constructor; [|constructor; [|constructor]].
  - exists Sample.header, [Sample.runway;
             {| AptDatLine.raw := EmptyString;
                AptDatLine.row_code := StrCode EmptyString |};
             Sample.helipad;
             {| AptDatLine.raw := "99"; AptDatLine.row_code := IntCode 99 |}],
      "KSEA"%string, Sample.elevation, 0%Z.
    split; [reflexivity|]. split; [reflexivity|].
    split; [exact sample_header_fields|].
    split; [vm_compute; reflexivity|].
    split; [repeat constructor | reflexivity].
  - exists Sample.heliport_header, [Sample.helipad;
             {| AptDatLine.raw := "99"; AptDatLine.row_code := IntCode 99 |}],
      "h1"%string, (QArith_base.Qmake 12 1), 0%Z.
    split; [reflexivity|]. split; [reflexivity|].
    split; [exact heliport_header_fields|].
    split; [vm_compute; reflexivity|].
    split; [repeat constructor | reflexivity].
Defined.

Lemma parse_text_segments_witness :
  AptDat._parse_text (H := Exact.builtins) AptDat.empty
    (TextList Sample.two_airport_lines) "apt.dat" = Ok Sample.container.
Proof.
  eapply (parse_text_segments (H := Exact.builtins) AptDat.empty
            (TextList Sample.two_airport_lines) "apt.dat"
            Sample.before _ Sample.segments [Sample.ksea; Sample.heliport]).
  - reflexivity.
  - vm_compute. reflexivity.
  - repeat constructor.
  - reflexivity.
  - exact sample_segments.
Defined.

(** ** What a successful parse has built *)

Section Built.
Context `{Builtins}.

Lemma getitem_Ok_inv {A : Type} (l : list A) (n : nat) (a : A) :
  Py.getitem l (Z.of_nat n) = Ok a -> nth_error l n = Some a.
Proof.
  unfold Py.getitem.
  replace (Z.of_nat n <? 0)%Z with false by (symmetry; apply Z.ltb_ge; lia).
  destruct ((0 <=? Z.of_nat n) && (Z.of_nat n <? Z.of_nat (length l)))%Z;
    [|discriminate].
  rewrite Nat2Z.id.
  destruct (nth_error l n); [|discriminate].
  intros E. injection E as <-. reflexivity.
Qed.

(** An airport that [Airport.from_lines] has built holds the fields of
    the only header line of its payload. *)
Lemma from_lines_Ok_fields lines from_file_name apt :
  Airport.from_lines (map ALine lines) from_file_name = Ok apt ->
  exists header id_ elevation atc,
    filter AptDatLine.is_airport_header lines = [header] /\
    header_fields header id_ elevation atc /\
    apt = airport_of header id_ elevation atc from_file_name lines.
Proof.
  unfold Airport.from_lines. rewrite mapM_as_line_ALine. cbn [bind].
  intros E.
  apply bind_Ok_inv in E. destruct E as [u0 [_ E]].
  apply bind_Ok_inv in E. destruct E as [u1 [A1 E]].
  apply py_assert_Ok_inv, length_1_inv in A1. destruct A1 as [header Eh].
  rewrite Eh in E. rewrite getitem_0_cons in E. cbn [bind] in E.
  apply bind_Ok_inv in E. destruct E as [id_ [Eid E]].
  apply bind_Ok_inv in E. destruct E as [t1 [Et1 E]].
  apply bind_Ok_inv in E. destruct E as [elevation [Ee E]].
  apply bind_Ok_inv in E. destruct E as [t2 [Et2 E]].
  apply bind_Ok_inv in E. destruct E as [atc [Ea E]].
  injection E as <-.
  exists header, id_, elevation, atc. split; [exact Eh|]. split; [|reflexivity].
  constructor.
  - apply (getitem_Ok_inv _ 4). exact Eid.
  - exists t1. split; [apply (getitem_Ok_inv _ 1); exact Et1|].
    unfold float in Ee. destruct (float_of_str t1); [|discriminate].
    injection Ee as <-. reflexivity.
  - exists t2. split; [apply (getitem_Ok_inv _ 2); exact Et2|].
    unfold int_of in Ea. destruct (Py.int t2); [|discriminate].
    injection Ea as <-. reflexivity.
Qed.

(** What the loop holds in [apt_lines] at any time: lines gathered before
    any header, or a header and lines after it that are kept, every line
    being parsed from its raw text. *)
Let gathered (cur : list AptDatLine.t) : Prop :=
  Forall not_header cur \/
  exists h rest,
    cur = h :: rest /\ AptDatLine.is_airport_header h = true /\
    Forall not_header rest /\ Forall (fun l => kept l = true) rest /\
    Forall parsed_line cur.

Lemma finish_airport_built acc cur from_file acc' :
  AptDat.finish_airport acc cur from_file = Ok acc' ->
  gathered cur ->
  exists new, acc' = acc ++ new /\ Forall (built_from from_file) new.
Proof.
  unfold AptDat.finish_airport. intros E G.
  destruct (Py.truthy cur).
  - apply bind_Ok_inv in E. destruct E as [apt [Ea E]]. injection E as <-.
    apply from_lines_Ok_fields in Ea.
    destruct Ea as [header [id_ [elevation [atc [Eh [Hf ->]]]]]].
    exists [airport_of header id_ elevation atc from_file cur].
    split; [reflexivity|]. constructor; [|constructor].
    destruct G as [Hn | [h [rest [-> [Hh [Hr [Hk Hp]]]]]]].
    + rewrite (filter_header_none cur Hn) in Eh. discriminate Eh.
    + cbn [filter] in Eh. rewrite Hh, (filter_header_none rest Hr) in Eh.
      injection Eh as ->.
      exists header, rest, id_, elevation, atc. auto 10.
  - injection E as <-. exists []. rewrite app_nil_r. split; constructor.
Qed.

Lemma parse_loop_built from_file raws acc cur acc' cur' :
  AptDat.parse_loop from_file raws acc cur = Ok (acc', cur') ->
  gathered cur ->
  exists new,
    acc' = acc ++ new /\ Forall (built_from from_file) new /\ gathered cur'.
Proof.
  revert acc cur. induction raws as [|l raws IH]; intros acc cur E G.
  - simpl in E. injection E as <- <-. exists [].
    rewrite app_nil_r. repeat split; [constructor | exact G].
  - simpl in E.
    destruct (AptDatLine.__init__ l) as [line|e] eqn:El; [|discriminate E].
    assert (Hp : parsed_line line)
      by (unfold parsed_line; rewrite (AptDatLine_init_raw _ _ El); exact El).
    simpl bind in E.
    destruct (AptDatLine.is_airport_header line) eqn:Hh.
    + apply bind_Ok_inv in E. destruct E as [acc1 [Ef E]].
      destruct (finish_airport_built _ _ _ _ Ef G) as [new1 [-> Hnew1]].
      assert (G1 : gathered [line]).
      { right. exists line, []. repeat split; try constructor; auto. }
      destruct (IH _ _ E G1) as [new2 [-> [Hnew2 G']]].
      exists (new1 ++ new2). rewrite app_assoc. repeat split.
      * apply Forall_app. split; assumption.
      * exact G'.
    + destruct (negb (AptDatLine.is_ignorable line)) eqn:Hk.
      * apply (IH _ _ E).
        destruct G as [Hn | [h [rest [-> [Hhh [Hr [Hkk Hpp]]]]]]].
        -- left. apply Forall_app. split; [exact Hn|].
           constructor; [exact Hh | constructor].
        -- right. exists h, (rest ++ [line]). repeat split.
           ++ exact Hhh.
           ++ apply Forall_app. split; [exact Hr|].
              constructor; [exact Hh | constructor].
           ++ apply Forall_app. split; [exact Hkk|].
              constructor; [exact Hk | constructor].
           ++ change (h :: rest ++ [line]) with ((h :: rest) ++ [line]).
              apply Forall_app. split; [exact Hpp|].
              constructor; [exact Hp | constructor].
      * apply (IH _ _ E G).
Qed.

Lemma parse_text_built_from self apt_dat_text from_file self' :
  AptDat._parse_text self apt_dat_text from_file = Ok self' ->
  exists new,
    self' = {| AptDat.airports := AptDat.airports self ++ new;
               AptDat.path_to_file := Some from_file |} /\
    Forall (built_from from_file) new.
Proof.
  intros E. unfold AptDat._parse_text in E.
  apply bind_Ok_inv in E. destruct E as [[acc cur] [El E]].
  apply bind_Ok_inv in E. destruct E as [acc' [Ef E]].
  injection E as <-. cbn [fst snd] in Ef.
  assert (G0 : gathered []) by (left; constructor).
  destruct (parse_loop_built _ _ _ _ _ _ El G0) as [new1 [-> [Hnew1 G]]].
  destruct (finish_airport_built _ _ _ _ Ef G) as [new2 [-> Hnew2]].
  exists (new1 ++ new2). rewrite app_assoc. split; [reflexivity|].
  apply Forall_app. split; assumption.
Qed.

End Built.

(** X14: what a successful parse has built.  Every airport [_parse_text]
    adds has as payload one airport-header line followed by lines that are
    neither headers nor ignorable, each line parsed from its raw text; its
    id is token 4 of that header, its elevation [float] of token 1, its ATC
    flag the truth value of [int] of token 2, its name tokens[5:] joined
    with single spaces, and [from_file] is the name given.  The airports
    the container held come first, unchanged. *)
Theorem parse_text_airports_built `{Builtins} (self : AptDat.t)
    (apt_dat_text : text_arg) (from_file : string) (self' : AptDat.t) :
  AptDat._parse_text self apt_dat_text from_file = Ok self' ->
  exists new,
    AptDat.airports self' = AptDat.airports self ++ new /\
    AptDat.path_to_file self' = Some from_file /\
    Forall (built_from from_file) new.
Proof.
  intros E. destruct (parse_text_built_from _ _ _ _ E) as [new [-> Hnew]].
  exists new. repeat split. exact Hnew.
Qed.

Lemma parse_text_airports_built_witness :
  exists new,
    AptDat.airports Sample.container = AptDat.airports AptDat.empty ++ new /\
    AptDat.path_to_file Sample.container = Some "apt.dat"%string /\
    Forall (built_from (H := Exact.builtins) "apt.dat") new.
Proof.
  apply (parse_text_airports_built (H := Exact.builtins) AptDat.empty
           (TextList Sample.two_airport_lines) "apt.dat" Sample.container).
  vm_compute. reflexivity.
Defined.

(** ** Lines and texts *)

Lemma one_line_app (s t : string) :
  one_line (s ++ t) = one_line s && one_line t.
Proof.
  induction s as [|c s IH]; simpl; [reflexivity|].
  rewrite IH, andb_assoc. reflexivity.
Qed.

Lemma one_line_rev (cur : list ascii) :
  forallb (fun c => negb (Py.islinebreak c)) cur = true ->
  one_line (string_of_list_ascii (rev cur)) = true.
Proof.
  induction cur as [|c cur IH]; simpl; [reflexivity|].
  intros E. apply andb_true_iff in E. destruct E as [Hc Hcur].
  rewrite string_of_list_ascii_app, one_line_app, (IH Hcur). simpl.
  rewrite Hc. reflexivity.
Qed.

(** The lines [splitlines] returns hold no line boundary. *)
Lemma splitlines_from_one_lines (n : nat) (s : string) (cur : list ascii) :
  (String.length s <= n)%nat ->
  forallb (fun c => negb (Py.islinebreak c)) cur = true ->
  forallb one_line (Py.splitlines_from cur s) = true.
Proof.
  revert s cur. induction n as [|n IH]; intros s cur Hn Hcur.
  - destruct s; [|simpl in Hn; lia].
    destruct cur; [reflexivity|].
    cbn [Py.splitlines_from forallb]. rewrite (one_line_rev _ Hcur). reflexivity.
  - destruct s as [|c r].
    + destruct cur; [reflexivity|].
      cbn [Py.splitlines_from forallb]. rewrite (one_line_rev _ Hcur).
      reflexivity.
    + simpl in Hn. cbn [Py.splitlines_from].
      destruct (Py.islinebreak c) eqn:Hc.
      * cbn [forallb]. rewrite (one_line_rev _ Hcur). cbn [andb].
        destruct (Ascii.eqb c Py.CR); [|apply IH; [lia | reflexivity]].
        destruct r as [|c' r']; [reflexivity|].
        destruct (Ascii.eqb c' Py.LF); apply IH; simpl in *; try lia;
          reflexivity.
      * apply IH; [lia|]. cbn [forallb]. rewrite Hc. exact Hcur.
Qed.

Lemma splitlines_one_lines (s : string) :
  forallb one_line (Py.splitlines s) = true.
Proof.
  apply (splitlines_from_one_lines (String.length s)); [lia | reflexivity].
Qed.




Lemma join_app (sep : string) (l1 l2 : list string) :
  l1 <> [] -> l2 <> [] ->
  Py.join sep (l1 ++ l2) = (Py.join sep l1 ++ sep ++ Py.join sep l2)%string.
Proof.
  induction l1 as [|a [|b l1] IH]; intros N1 N2.
  - exfalso. apply N1. reflexivity.
  - destruct l2 as [|c l2]; [exfalso; apply N2; reflexivity | reflexivity].
  - change (Py.join sep ((a :: b :: l1) ++ l2))
      with (a ++ sep ++ Py.join sep ((b :: l1) ++ l2))%string.
    rewrite IH by (discriminate || assumption).
    change (Py.join sep (a :: b :: l1))
      with (a ++ sep ++ Py.join sep (b :: l1))%string.
    rewrite !append_assoc. reflexivity.
Qed.

(** A join of joins is the join of all the lines, when no group is
    empty. *)
Lemma join_join (sep : string) (groups : list (list string)) :
  Forall (fun g => g <> []) groups ->
  Py.join sep (map (Py.join sep) groups) = Py.join sep (concat groups).
Proof.
  induction groups as [|g [|g2 groups] IH]; intros N.
  - reflexivity.
  - cbn [map concat Py.join]. rewrite app_nil_r. reflexivity.
  - inversion N as [|? ? Hg Hrest]; subst.
    change (Py.join sep (map (Py.join sep) (g :: g2 :: groups)))
      with (Py.join sep g ++ sep ++
            Py.join sep (map (Py.join sep) (g2 :: groups)))%string.
    rewrite (IH Hrest).
    change (concat (g :: g2 :: groups)) with (g ++ concat (g2 :: groups)).
    rewrite (join_app sep g (concat (g2 :: groups)));
      [reflexivity | exact Hg |].
    inversion Hrest as [|? ? Hg2 _]; subst.
    destruct g2; [exfalso; apply Hg2; reflexivity | discriminate].
Qed.

(** ** The lines a parse keeps *)

Section KeptLines.
Context `{Builtins}.

Lemma relevant_header_or_kept (l : string) (line : AptDatLine.t) :
  AptDatLine.__init__ l = Ok line ->
  relevant l = AptDatLine.is_airport_header line || kept line.
Proof.
  intros E. unfold relevant. rewrite E. reflexivity.
Qed.

Lemma finish_airport_lines acc cur from_file acc' :
  AptDat.finish_airport acc cur from_file = Ok acc' ->
  concat (map payload_raws acc') =
  concat (map payload_raws acc) ++ map AptDatLine.raw cur.
Proof.
  unfold AptDat.finish_airport. intros E.
  destruct cur as [|x cur]; cbn [Py.truthy] in E.
  - injection E as <-. rewrite app_nil_r. reflexivity.
  - apply bind_Ok_inv in E. destruct E as [apt [Ea E]]. injection E as <-.
    apply from_lines_Ok_inv in Ea. destruct Ea as [header [Et _]].
    rewrite mapM_as_line_ALine in Et. injection Et as Et.
    rewrite map_app, concat_app. cbn [map concat]. rewrite app_nil_r.
    unfold payload_raws at 2. rewrite <- Et. reflexivity.
Qed.

Lemma parse_loop_lines from_file raws acc cur acc' cur' :
  AptDat.parse_loop from_file raws acc cur = Ok (acc', cur') ->
  concat (map payload_raws acc') ++ map AptDatLine.raw cur' =
  concat (map payload_raws acc) ++ map AptDatLine.raw cur ++
  filter relevant raws.
Proof.
  revert acc cur. induction raws as [|l raws IH]; intros acc cur E.
  - simpl in E. injection E as <- <-. cbn [filter]. rewrite app_nil_r.
    reflexivity.
  - simpl in E.
    destruct (AptDatLine.__init__ l) as [line|e] eqn:El; [|discriminate E].
    cbn [bind] in E. cbn [filter].
    rewrite (relevant_header_or_kept l line El).
    pose proof (AptDatLine_init_raw _ _ El) as Eraw.
    destruct (AptDatLine.is_airport_header line).
    + apply bind_Ok_inv in E. destruct E as [acc1 [Ef E]].
      rewrite (IH _ _ E), (finish_airport_lines _ _ _ _ Ef).
      cbn [orb map app]. rewrite Eraw, <- app_assoc. reflexivity.
    + cbn [orb]. unfold kept.
      destruct (negb (AptDatLine.is_ignorable line)).
      * rewrite (IH _ _ E), map_app. cbn [map]. rewrite Eraw, <- app_assoc.
        reflexivity.
      * apply (IH _ _ E).
Qed.

Lemma parse_text_lines self apt_dat_text from_file self' :
  AptDat._parse_text self apt_dat_text from_file = Ok self' ->
  concat (map payload_raws (AptDat.airports self')) =
  concat (map payload_raws (AptDat.airports self)) ++
  filter relevant (lines_of apt_dat_text).
Proof.
  intros E. unfold AptDat._parse_text in E.
  apply bind_Ok_inv in E. destruct E as [[acc cur] [El E]].
  apply bind_Ok_inv in E. destruct E as [acc' [Ef E]].
  injection E as <-. cbn [fst snd AptDat.airports] in *.
  rewrite (finish_airport_lines _ _ _ _ Ef), (parse_loop_lines _ _ _ _ _ _ El).
  cbn [map app]. reflexivity.
Qed.

(** The loop does not look at the lines that are not relevant. *)
Lemma parse_loop_filter_relevant from_file raws acc cur :
  AptDat.parse_loop from_file raws acc cur =
  AptDat.parse_loop from_file (filter relevant raws) acc cur.
Proof.
  revert acc cur. induction raws as [|l raws IH]; intros acc cur;
    [reflexivity|].
  cbn [filter].
  destruct (AptDatLine.__init__ l) as [line|e] eqn:El.
  - rewrite (relevant_header_or_kept l line El).
    destruct (AptDatLine.is_airport_header line) eqn:Hh.
    + cbn [orb AptDat.parse_loop]. rewrite El. cbn [bind]. rewrite Hh.
      destruct (AptDat.finish_airport acc cur from_file); [|reflexivity].
      cbn [bind]. apply IH.
    + cbn [orb]. unfold kept.
      destruct (negb (AptDatLine.is_ignorable line)) eqn:Hk.
      * cbn [AptDat.parse_loop]. rewrite El. cbn [bind]. rewrite Hh, Hk.
        apply IH.
      * cbn [AptDat.parse_loop]. rewrite El. cbn [bind]. rewrite Hh, Hk.
        apply IH.
  - rewrite AptDatLine_init_Ok in El. discriminate El.
Qed.

End KeptLines.

(** X15: a successful parse loses nothing but ignorable lines: the
    payloads of the airports it adds, put end to end, are the lines of the
    input that are airport headers or not ignorable, in the order of the
    input. *)
Theorem parse_text_keeps_lines `{Builtins} (self : AptDat.t)
    (apt_dat_text : text_arg) (from_file : string) (self' : AptDat.t) :
  AptDat._parse_text self apt_dat_text from_file = Ok self' ->
  exists new,
    AptDat.airports self' = AptDat.airports self ++ new /\
    concat (map payload_raws new) = filter relevant (lines_of apt_dat_text).
Proof.
  intros E. pose proof (parse_text_lines _ _ _ _ E) as L.
  destruct (parse_text_built_from _ _ _ _ E) as [new [-> _]].
  exists new. cbn [AptDat.airports] in *. split; [reflexivity|].
  rewrite map_app, concat_app in L. apply app_inv_head in L. exact L.
Qed.

Lemma parse_text_keeps_lines_witness :
  exists new,
    AptDat.airports Sample.container = AptDat.airports AptDat.empty ++ new /\
    concat (map (payload_raws (H := Exact.builtins)) new) =
    filter relevant (lines_of (TextList Sample.two_airport_lines)).
Proof.
  apply (parse_text_keeps_lines (H := Exact.builtins) AptDat.empty
           (TextList Sample.two_airport_lines) "apt.dat" Sample.container).
  vm_compute. reflexivity.
Defined.

(** ** Printing and parsing again *)

Section Reparse.
Context `{Builtins}.

Lemma mapM_init_parsed (ls : list AptDatLine.t) :
  Forall parsed_line ls ->
  mapM AptDatLine.__init__ (map AptDatLine.raw ls) = Ok ls.
Proof.
  induction 1 as [|l ls Hl _ IH]; [reflexivity|].
  cbn [map mapM]. unfold parsed_line in Hl. rewrite Hl, IH. reflexivity.
Qed.

Lemma filter_kept_all (ls : list AptDatLine.t) :
  Forall (fun l => kept l = true) ls -> filter kept ls = ls.
Proof.
  induction 1 as [|l ls Hl _ IH]; [reflexivity|].
  cbn [filter]. rewrite Hl, IH. reflexivity.
Qed.

(** The raw text of a parsed line that is a header or is kept is not
    empty. *)
Lemma parsed_nonempty (l : AptDatLine.t) :
  parsed_line l ->
  AptDatLine.is_airport_header l || kept l = true ->
  AptDatLine.raw l <> EmptyString.
Proof.
  intros P R E. unfold parsed_line in P. rewrite E in P.
  vm_compute in P. injection P as <-. vm_compute in R. discriminate R.
Qed.

Lemma built_from_segment from_file apt :
  built_from from_file apt ->
  exists seg,
    segment_airport from_file seg apt /\
    segment_lines seg = payload_raws apt.
Proof.
  intros [header [rest [id_ [elevation [atc [-> [Hh [Hf [Hr [Hk Hp]]]]]]]]]].
  inversion Hp as [|? ? Php Hprest]; subst.
  exists (AptDatLine.raw header, map AptDatLine.raw rest). split.
  - exists header, rest, id_, elevation, atc. cbn [fst snd].
    split; [exact Php|]. split; [exact Hh|]. split; [exact Hf|].
    split; [apply mapM_init_parsed; exact Hprest|].
    split; [exact Hr|].
    rewrite (filter_kept_all rest Hk). reflexivity.
  - reflexivity.
Qed.

Lemma built_from_segments from_file apts :
  Forall (built_from from_file) apts ->
  exists segs,
    Forall2 (segment_airport from_file) segs apts /\
    flat_map segment_lines segs = concat (map payload_raws apts).
Proof.
  induction 1 as [|apt apts Ha _ [segs [F E]]].
  - exists []. split; [constructor | reflexivity].
  - destruct (built_from_segment _ _ Ha) as [seg [Hs Es]].
    exists (seg :: segs). split; [constructor; assumption|].
    cbn [flat_map map concat]. rewrite Es, E. reflexivity.
Qed.

Lemma built_from_raws from_file apt :
  built_from from_file apt ->
  payload_raws apt <> [] /\
  Forall (fun r => r <> EmptyString) (payload_raws apt) /\
  forallb relevant (payload_raws apt) = true.
Proof.
  intros [header [rest [id_ [elevation [atc [-> [Hh [Hf [Hr [Hk Hp]]]]]]]]]].
  unfold payload_raws. cbn [airport_of Airport.text].
  split; [discriminate|].
  assert (R : Forall (fun l => AptDatLine.is_airport_header l || kept l = true)
                (header :: rest)).
  { constructor; [rewrite Hh; reflexivity|].
    revert Hk. apply Forall_impl. intros l Hl. rewrite Hl.
    apply orb_true_r. }
  split.
  - apply Forall_map. revert R. generalize (header :: rest) Hp.
    induction 1 as [|l ls Hl _ IH]; intros R; [constructor|].
    inversion R; subst. constructor; [apply parsed_nonempty|]; auto.
  - revert R. generalize (header :: rest) Hp.
    induction 1 as [|l ls Hl _ IH]; intros R; [reflexivity|].
    inversion R as [|? ? Rl Rls]; subst. cbn [map forallb].
    rewrite (relevant_header_or_kept _ l Hl), Rl. exact (IH Rls).
Qed.

(** Parsing the payload lines of airports built from a file builds them
    again. *)
Lemma parse_built_lines from_file apts acc lines :
  Forall (built_from from_file) apts ->
  filter relevant lines = concat (map payload_raws apts) ->
  (st <- AptDat.parse_loop from_file lines acc [] ;;
   AptDat.finish_airport (fst st) (snd st) from_file) = Ok (acc ++ apts).
Proof.
  intros B E. rewrite parse_loop_filter_relevant, E.
  destruct (built_from_segments _ _ B) as [segs [F <-]].
  apply (parse_segments from_file segs apts acc [] acc F). reflexivity.
Qed.

Lemma parse_text_built_lines from_file apts arg :
  Forall (built_from from_file) apts ->
  filter relevant (lines_of arg) = concat (map payload_raws apts) ->
  AptDat.from_file_text arg from_file =
  Ok {| AptDat.airports := apts; AptDat.path_to_file := Some from_file |}.
Proof.
  intros B E. unfold AptDat.from_file_text, AptDat._parse_text.
  pose proof (parse_built_lines from_file apts [] (lines_of arg) B E) as R.
  cbn [AptDat.empty AptDat.airports].
  destruct (AptDat.parse_loop from_file (lines_of arg) [] []) as [st|e];
    cbn [bind] in *; [|discriminate R].
  rewrite R. reflexivity.
Qed.

Lemma filter_all {A : Type} (p : A -> bool) (l : list A) :
  forallb p l = true -> filter p l = l.
Proof.
  induction l as [|x l IH]; [reflexivity|].
  cbn [forallb filter]. intros E. apply andb_true_iff in E.
  destruct E as [Ex El]. rewrite Ex, (IH El). reflexivity.
Qed.

Lemma built_raws_relevant from_file apts :
  Forall (built_from from_file) apts ->
  forallb relevant (concat (map payload_raws apts)) = true.
Proof.
  induction 1 as [|apt apts Ha _ IH]; [reflexivity|].
  cbn [map concat]. rewrite forallb_app, IH.
  destruct (built_from_raws _ _ Ha) as [_ [_ ->]]. reflexivity.
Qed.

Lemma built_raws_last from_file apts :
  Forall (built_from from_file) apts ->
  apts <> [] ->
  last (concat (map payload_raws apts)) EmptyString <> EmptyString.
Proof.
  intros B N.
  assert (F : Forall (fun r => r <> EmptyString)
                (concat (map payload_raws apts))).
  { clear N. induction B as [|apt apts Ha _ IH]; [constructor|].
    cbn [map concat]. apply Forall_app. split; [|exact IH].
    apply (built_from_raws _ _ Ha). }
  assert (N' : concat (map payload_raws apts) <> []).
  { destruct B as [|apt apts Ha _]; [exfalso; apply N; reflexivity|].
    cbn [map concat]. destruct (built_from_raws _ _ Ha) as [Hn _].
    destruct (payload_raws apt); [exfalso; apply Hn; reflexivity|].
    discriminate. }
  revert F N'. generalize (concat (map payload_raws apts)).
  induction l as [|a [|b l] IH]; intros F N'.
  - exfalso. apply N'. reflexivity.
  - inversion F; subst. assumption.
  - inversion F; subst. apply IH; [assumption | discriminate].
Qed.

(** The lines of [str(apt_dat)]. *)
Lemma splitlines_str from_file (self : AptDat.t) :
  Forall (built_from from_file) (AptDat.airports self) ->
  forallb one_line (concat (map payload_raws (AptDat.airports self))) = true ->
  Py.splitlines (AptDat.__str__ self) =
  concat (map payload_raws (AptDat.airports self)).
Proof.
  intros B O. unfold AptDat.__str__.
  destruct (AptDat.airports self) as [|apt apts] eqn:Ea; [reflexivity|].
  replace (map Airport.__str__ (apt :: apts))
    with (map (Py.join WED_LINE_ENDING) (map payload_raws (apt :: apts)))
    by (rewrite map_map; reflexivity).
  rewrite join_join.
  - apply splitlines_join; [exact O|].
    apply (built_raws_last from_file); [exact B | discriminate].
  - apply Forall_map. revert B. apply Forall_impl. intros a Ha.
    apply (built_from_raws _ _ Ha).
Qed.

End Reparse.

Lemma forallb_filter {A : Type} (p q : A -> bool) (l : list A) :
  forallb p l = true -> forallb p (filter q l) = true.
Proof.
  induction l as [|x l IH]; [reflexivity|].
  cbn [forallb filter]. intros E. apply andb_true_iff in E.
  destruct E as [Ex El]. destruct (q x); [cbn [forallb]; rewrite Ex|];
    apply IH; exact El.
Qed.

(** What a parse of a text leaves: airports built from the file, whose
    payload lines are the relevant lines of the text, none of them holding
    a line boundary. *)
Lemma from_file_text_built `{Builtins} (s from_file : string) (c : AptDat.t) :
  AptDat.from_file_text (TextStr s) from_file = Ok c ->
  c = {| AptDat.airports := AptDat.airports c;
         AptDat.path_to_file := Some from_file |} /\
  Forall (built_from from_file) (AptDat.airports c) /\
  concat (map payload_raws (AptDat.airports c)) =
    filter relevant (Py.splitlines s) /\
  forallb one_line (concat (map payload_raws (AptDat.airports c))) = true.
Proof.
  intros E. unfold AptDat.from_file_text in E.
  pose proof (parse_text_lines _ _ _ _ E) as L.
  destruct (parse_text_built_from _ _ _ _ E) as [new [-> B]].
  cbn [AptDat.empty AptDat.airports app map concat lines_of] in *.
  split; [reflexivity|]. split; [exact B|]. split; [exact L|].
  rewrite L. apply forallb_filter, splitlines_one_lines.
Qed.

(** X16: printing a parsed text and parsing it again.  For a text [s]
    that [from_file_text] parses into a container, the lines of
    [str(container)] are the lines of [s] that are airport headers or not
    ignorable, and parsing [str(container)] gives the same container
    again. *)
Theorem parse_str_parse `{Builtins} (s from_file : string) (c : AptDat.t) :
  AptDat.from_file_text (TextStr s) from_file = Ok c ->
  Py.splitlines (AptDat.__str__ c) = filter relevant (Py.splitlines s) /\
  AptDat.from_file_text (TextStr (AptDat.__str__ c)) from_file = Ok c.
Proof.
  intros E. destruct (from_file_text_built _ _ _ E) as [Ec [B [L O]]].
  pose proof (splitlines_str from_file c B O) as S.
  split; [rewrite S; exact L|].
  rewrite Ec at 2.
  apply parse_text_built_lines; [exact B|].
  cbn [lines_of]. rewrite S. apply filter_all.
  apply (built_raws_relevant from_file). exact B.
Qed.

Lemma parse_str_parse_witness :
  let s := Py.join WED_LINE_ENDING Sample.two_airport_lines in
  Py.splitlines (AptDat.__str__ Sample.container) =
    filter relevant (Py.splitlines s) /\
  AptDat.from_file_text (H := Exact.builtins)
    (TextStr (AptDat.__str__ Sample.container)) "apt.dat" = Ok Sample.container.
Proof.
  apply (parse_str_parse (H := Exact.builtins)
           (Py.join WED_LINE_ENDING Sample.two_airport_lines) "apt.dat"
           Sample.container).
  vm_compute. reflexivity.
Defined.

(** ** The files written *)

Section Written.
Context `{Builtins}.








End Written.







(** ** The tokens of a line *)

Lemma lstrip_head (s : string) (c : ascii) (r : string) :
  Py.lstrip s = String c r -> Py.isspace c = false.
Proof.
  induction s as [|a s IH]; simpl; [discriminate|].
  destruct (Py.isspace a) eqn:Ha; [exact IH|].
  intros E. injection E as <- _. exact Ha.
Qed.

Lemma isspace_space (c : ascii) :
  Py.isspace c = false -> Ascii.eqb c " " = false.
Proof.
  intros E. destruct (Ascii.eqb_spec c " ") as [->|]; [discriminate E|].
  reflexivity.
Qed.

Lemma rstrip_ends_clean (u : string) : ends_clean false (Py.rstrip u) = true.
Proof.
  induction u as [|c r IH]; [reflexivity|].
  cbn [Py.rstrip]. destruct (Py.rstrip r) as [|c' r'].
  - destruct (Py.isspace c) eqn:Hc; [reflexivity|].
    cbn [ends_clean]. rewrite (isspace_space c Hc). reflexivity.
  - exact IH.
Qed.

Lemma rstrip_head (c : ascii) (r : string) :
  Py.isspace c = false -> exists r', Py.rstrip (String c r) = String c r'.
Proof.
  intros Hc. cbn [Py.rstrip]. destruct (Py.rstrip r).
  - rewrite Hc. eexists. reflexivity.
  - eexists. reflexivity.
Qed.

(** A stripped text is empty, or starts and ends with characters that are
    not spaces. *)
Lemma strip_shape (s : string) :
  Py.strip s = EmptyString \/
  exists c r, Py.strip s = String c r /\ Ascii.eqb c " " = false /\
              ends_clean false (String c r) = true.
Proof.
  unfold Py.strip. pose proof (rstrip_ends_clean (Py.lstrip s)) as E.
  destruct (Py.lstrip s) as [|c r] eqn:El; [left; reflexivity|].
  pose proof (lstrip_head _ _ _ El) as Hc.
  destruct (rstrip_head c r Hc) as [r' Er]. rewrite Er in *.
  right. exists c, r'. split; [reflexivity|].
  split; [apply isspace_space; exact Hc | exact E].
Qed.

Lemma re_sub_spaces_single (b : bool) (s : string) :
  ends_clean b s = true ->
  single_spaced b (Py.re_sub_spaces_from b s) = true.
Proof.
  revert b. induction s as [|c r IH]; intros b E; [exact E|].
  cbn [ends_clean] in E. cbn [Py.re_sub_spaces_from].
  destruct (Ascii.eqb c " ") eqn:Hc.
  - destruct b; [apply IH; exact E|].
    cbn [single_spaced]. rewrite (IH true E). reflexivity.
  - cbn [single_spaced]. rewrite Hc. apply IH. exact E.
Qed.

Lemma split_single_spaced (p : bool) (s : string) :
  single_spaced p s = true ->
  exists w ws,
    Py.split " " s = w :: ws /\
    Forall (fun t => t <> EmptyString) ws /\
    (p = true -> w <> EmptyString).
Proof.
  revert p. induction s as [|c r IH]; intros p E.
  - exists EmptyString, []. split; [reflexivity|]. split; [constructor|].
    intros ->. discriminate E.
  - cbn [single_spaced] in E. cbn [Py.split].
    destruct (Ascii.eqb c " ") eqn:Hc.
    + apply andb_true_iff in E. destruct E as [Hp E].
      destruct (IH true E) as [w [ws [Es [Hws Hw]]]].
      exists EmptyString, (w :: ws). rewrite Es. split; [reflexivity|].
      split; [constructor; auto|].
      intros ->. discriminate Hp.
    + destruct (IH false E) as [w [ws [Es [Hws _]]]]. rewrite Es.
      exists (String c w), ws. split; [reflexivity|].
      split; [exact Hws | discriminate].
Qed.

Lemma join_split (s : string) : Py.join " " (Py.split " " s) = s.
Proof.
  induction s as [|c r IH]; [reflexivity|].
  cbn [Py.split]. destruct (Ascii.eqb_spec c " ") as [->|N].
  - destruct (Py.split " " r) as [|w ws] eqn:Es.
    + destruct (split_first_word r) as [ws E]. rewrite E in Es. discriminate.
    + change (Py.join " " (EmptyString :: w :: ws))
        with (String " " (Py.join " " (w :: ws))).
      rewrite IH. reflexivity.
  - destruct (Py.split " " r) as [|w [|w2 ws]] eqn:Es.
    + destruct (split_first_word r) as [ws E]. rewrite E in Es. discriminate.
    + cbn [Py.join] in *. rewrite IH. reflexivity.
    + change (Py.join " " (String c w :: w2 :: ws))
        with (String c (Py.join " " (w :: w2 :: ws))).
      rewrite IH. reflexivity.
Qed.

Lemma contains_space_cons (c : ascii) (w : string) :
  Ascii.eqb c " " = false ->
  Py.contains " " (String c w) = Py.contains " " w.
Proof.
  intros Hc. cbn [Py.contains String.prefix].
  destruct (Ascii.ascii_dec " " c) as [Ec|_]; [|reflexivity].
  subst c. discriminate Hc.
Qed.

Lemma split_no_sep (s : string) :
  Forall (fun t => Py.contains " " t = false) (Py.split " " s).
Proof.
  induction s as [|c r IH]; [repeat constructor|].
  cbn [Py.split]. destruct (Ascii.eqb c " ") eqn:Hc.
  - constructor; [reflexivity | exact IH].
  - destruct (Py.split " " r) as [|w ws].
    + constructor; [|constructor].
      rewrite (contains_space_cons c EmptyString Hc). reflexivity.
    + inversion IH as [|? ? Hw Hws]; subst. constructor; [|exact Hws].
      rewrite (contains_space_cons c w Hc). exact Hw.
Qed.

(** X19: the tokens of a line, joined with single spaces, are its
    normalized text; no token holds a space; and no token is empty, except
    on a blank line (one that [strip] empties), whose tokens are the list
    of one empty string: [tokens] is never the empty list. *)
Theorem tokens_never_empty (l : AptDatLine.t) :
  Py.join " " (AptDatLine.tokens l) = AptDatLine.__str__ l /\
  Forall (fun t => Py.contains " " t = false) (AptDatLine.tokens l) /\
  (if Py.str_truthy (Py.strip (AptDatLine.raw l))
   then Forall (fun t => t <> EmptyString) (AptDatLine.tokens l)
   else AptDatLine.tokens l = [EmptyString]).
Proof.
  unfold AptDatLine.tokens, AptDatLine.__str__.
  split; [apply join_split|]. split; [apply split_no_sep|].
  destruct (strip_shape (AptDatLine.raw l)) as [E | [c [r [E [Hc He]]]]];
    rewrite E.
  - reflexivity.
  - cbn [Py.str_truthy].
    pose proof (re_sub_spaces_single false (String c r) He) as S.
    unfold Py.re_sub_spaces. cbn [Py.re_sub_spaces_from] in *.
    rewrite Hc in *. cbn [single_spaced] in S. rewrite Hc in S.
    destruct (split_single_spaced false _ S) as [w [ws [Es [Hws _]]]].
    cbn [Py.split]. rewrite Hc, Es.
    constructor; [discriminate | exact Hws].
Qed.

Lemma first_word_re_sub_spaces (u : string) :
  Spec.first_word Spec.is_space (Py.re_sub_spaces_from false u) =
  Spec.first_word Spec.is_space u.
Proof.
  induction u as [|c r IH]; [reflexivity|].
  cbn [Py.re_sub_spaces_from].
  destruct (Ascii.eqb c " ") eqn:Hc; cbn [Spec.first_word]; unfold Spec.is_space.
  - rewrite Hc. reflexivity.
  - rewrite Hc. fold Spec.is_space. rewrite IH. reflexivity.
Qed.

(** X20: the row code of a line built from its text is its first token,
    as an integer when [int] accepts it and as the token itself when not:
    what the classifiers ([is_runway], [is_airport_header],
    [is_ignorable]) test is [tokens[0]]. *)
Theorem row_code_first_token (line_text : string) :
  exists line w ws,
    AptDatLine.__init__ line_text = Ok line /\
    AptDatLine.tokens line = w :: ws /\
    AptDatLine.row_code line = AptDatLine.suppress_int w.
Proof.
  rewrite AptDatLine_init_Ok.
  unfold AptDatLine.tokens, AptDatLine.__str__, Py.re_sub_spaces.
  cbn [AptDatLine.raw AptDatLine.row_code].
  destruct (split_first_word (Py.re_sub_spaces_from false (Py.strip line_text)))
    as [ws E].
  eexists _, _, ws. split; [reflexivity|]. split; [exact E|].
  rewrite first_word_re_sub_spaces. reflexivity.
Qed.
